(** * browser_wellbeing: the active-tab time-accounting background script

    The repository carries four revisions of the extension's background
    script.  Each one is embedded in a module of its own, named after the
    file it comes from:

    - [Ext]      : src/extension/background.js
    - [Part000]  : src/unnamed/part_000
    - [Part001a] : src/unnamed/part_001, first script  (lines 1-209)
    - [Part001b] : src/unnamed/part_001, second script (lines 211-415)

    Handlers are modelled as run-to-completion state transformers: every
    answer the browser gives during one invocation (clock reads, tab
    look-ups, storage and network outcomes) is collected in an [Env]
    record, and the handler becomes a pure function of that record and of
    the script's state.  Interleaving of two handlers at an [await] is
    outside this model. *)

From Stdlib Require Import ZArith Ascii String List Bool Lia.
From stdpp Require Import base option list gmap strings fin_maps.

Open Scope string_scope.
Open Scope list_scope.
Open Scope Z_scope.

(** ** Values shared by all revisions *)

(** A snapshot of a browsing context as [chrome.tabs.get] returns it.
    [url] and [title] are [undefined] when the extension may not see them. *)
Record Tab := {
  tab_id : Z;
  tab_url : option string;
  tab_title : option string;
  tab_active : bool
}.

(** A JavaScript number as the ledger holds it: an integer, or NaN (what
    [undefined + duration] evaluates to).  The store is taken to hand back
    the value it was given. *)
Inductive Num :=
| Fin (z : Z)
| NaN.

Coercion Fin : Z >-> Num.

(** The integer a number stands for where the scripts compare it with
    zero: [NaN > 0] is false, and so is [0 < num_val NaN]. *)
Definition num_val (n : Num) : Z :=
  match n with
  | Fin z => z
  | NaN => 0
  end.

#[warning="-ambiguous-paths"]
Coercion num_val : Num >-> Z.

(** [n + duration]: NaN absorbs. *)
Definition num_add (n : Num) (duration : Z) : Num :=
  match n with
  | Fin z => Fin (z + duration)
  | NaN => NaN
  end.

(** Order on totals of one entry before and after a step: integers by
    their order, NaN only with NaN. *)
Definition num_le (a b : Num) : Prop :=
  match a, b with
  | Fin x, Fin y => x <= y
  | NaN, NaN => True
  | _, _ => False
  end.

(** One value of the [websiteTime] object: [{ title, totalTime }]. *)
Record Entry := {
  title : option string;
  totalTime : Num
}.

(** [chrome.storage.local]: the keys the scripts use.  A missing
    [websiteTime] key and the empty object are both the empty map, as the
    scripts read it through [storage.websiteTime || {}].  The map holds
    the object's own keys; what a read or a write of a key does when the
    key is not an own one but a property of [Object.prototype] is spelled
    out by [read_entry] and [assign_entry] below. *)
Record Storage := {
  token : option string;
  username : option string;
  websiteTime : gmap string Entry
}.

(** Body of a [POST /track] request together with its bearer token. *)
Record Request := {
  website_url : string;
  website_title : option string;
  total_time_seconds : Num;
  bearer : option string
}.

(** Everything the browser answers during one handler invocation. *)
Record Env := {
  now : Z;                        (* Date.now() read by the commit *)
  now_start : Z;                  (* the later Date.now() stamping a new slot *)
  tabs_get : Z -> option Tab;     (* chrome.tabs.get; None: no such tab *)
  tabs_query : Z -> option Tab;   (* first active tab of a window *)
  commit_get_ok : bool;           (* storage.get inside the commit *)
  commit_set_ok : bool;           (* storage.set inside the commit *)
  sync_get_ok : bool;             (* storage.get of the alarm listener *)
  sync_set_ok : bool;             (* storage.set of the alarm listener *)
  fetch_ok : Request -> bool      (* fetch resolved and response.ok *)
}.

(** [changeInfo] of [chrome.tabs.onUpdated]. *)
Record ChangeInfo := {
  ci_url : option string;
  ci_status : option string
}.

(** JavaScript truthiness of a string-or-undefined and of a number-or-null. *)
Definition truthy_str (s : option string) : bool :=
  match s with
  | Some s => negb (String.eqb s "")
  | None => false
  end.

Definition truthy_num (n : option Z) : bool :=
  match n with
  | Some n => negb (Z.eqb n 0)
  | None => false
  end.

(** [Math.round((endTime - startTime) / 1000)] on integer millisecond
    stamps: rounding to nearest, halves upwards. *)
Definition duration_of (endTime startTime : Z) : Z :=
  (endTime - startTime + 500) / 1000.

(** [url.startsWith("chrome://")]. *)
Definition is_internal (u : string) : bool := String.prefix "chrome://" u.

(** [tab.url && !tab.url.startsWith("chrome://")]. *)
Definition trackable_url (u : option string) : bool :=
  match u with
  | Some s => negb (String.eqb s "") && negb (is_internal s)
  | None => false
  end.

Definition TAB_ID_NONE : Z := -1.
Definition WINDOW_ID_NONE : Z := -1.

Definition set_websiteTime (wt : gmap string Entry) (s : Storage) : Storage :=
  {| token := token s; username := username s; websiteTime := wt |}.

(** The property names every plain object inherits from
    [Object.prototype]; each of them reads as a truthy value (a function,
    or the prototype itself for "__proto__"). *)
Definition object_prototype_keys : list string :=
  [ "constructor"; "__defineGetter__"; "__defineSetter__"; "hasOwnProperty";
    "__lookupGetter__"; "__lookupSetter__"; "isPrototypeOf";
    "propertyIsEnumerable"; "toString"; "valueOf"; "__proto__";
    "toLocaleString" ].

Definition inherited_key (k : string) : bool :=
  existsb (String.eqb k) object_prototype_keys.

(** What [websiteTime[url]] evaluates to: an own entry, a truthy inherited
    value without a [totalTime], or [undefined]. *)
Inductive Read :=
| OwnEntry (e : Entry)
| InheritedValue
| Undefined.

Definition read_entry (wt : gmap string Entry) (url : string) : Read :=
  match wt !! url with
  | Some e => OwnEntry e
  | None => if inherited_key url then InheritedValue else Undefined
  end.

(** [websiteTime[url] = e].  When "__proto__" is not an own key the
    assignment goes to the inherited setter, which replaces the object's
    prototype and creates no own property: the stored map is unchanged. *)
Definition assign_entry (url : string) (e : Entry) (wt : gmap string Entry)
    : gmap string Entry :=
  if bool_decide (wt !! url = None) && String.eqb url "__proto__" then wt
  else <[url := e]> wt.

(** The read-modify-write of the three older revisions:
    [websiteTime[url] = { title, totalTime: (old ? old.totalTime : 0) + duration }].
    On an inherited value [old.totalTime] is [undefined] and the sum is
    NaN. *)
Definition merge_overwrite (url : string) (t : option string) (duration : Z)
    (wt : gmap string Entry) : gmap string Entry :=
  assign_entry url
    {| title := t;
       totalTime := match read_entry wt url with
                    | OwnEntry old => num_add (totalTime old) duration
                    | InheritedValue => NaN
                    | Undefined => Fin (0 + duration)
                    end |} wt.

(** The read-modify-write of part_000:
    [if (!websiteTime[url]) websiteTime[url] = { title, totalTime: 0 };
     websiteTime[url].totalTime += duration].
    On an inherited value the test is false, no own entry is created and
    the addition lands on the inherited object: the map is unchanged. *)
Definition merge_keep_title (url : string) (t : option string) (duration : Z)
    (wt : gmap string Entry) : gmap string Entry :=
  let wt1 := match read_entry wt url with
             | Undefined => assign_entry url {| title := t; totalTime := 0 |} wt
             | OwnEntry _ => wt
             | InheritedValue => wt
             end in
  alter (fun e => {| title := title e; totalTime := num_add (totalTime e) duration |})
        url wt1.

(** The request [sendTimeDataToBackend] builds for one ledger entry. *)
Definition request_of (tok : option string) (kv : string * Entry) : Request :=
  {| website_url := kv.1;
     website_title := title kv.2;
     total_time_seconds := totalTime kv.2;
     bearer := tok |}.

(** A small host-name reader used by the examples only: the text between
    "://" and the next "/".  The scripts use the browser's
    [new URL(u).hostname], which stays a parameter of every module. *)
Fixpoint upto_slash (s : string) : string :=
  match s with
  | EmptyString => EmptyString
  | String c r => if Ascii.eqb c "/"%char then EmptyString else String c (upto_slash r)
  end.

Fixpoint after_scheme (s : string) : option string :=
  match s with
  | EmptyString => None
  | String c r =>
      if String.prefix "://" s then Some (upto_slash (substring 3 (String.length s) s))
      else after_scheme r
  end.

Definition demo_hostname (u : string) : option string := after_scheme u.


(** ** Authentication exchange (shared shapes) *)

(** The parsed JSON body of the backend's answer.  [BodyNull] is the JSON
    value [null], on which a property read throws; every other value is
    read through its [token] and [error] properties. *)
Inductive Body :=
| BodyNull
| BodyObj (body_token : option string) (body_error : option string).

(** Outcome of [fetch] followed by [response.json()]: the transport may
    fail, and the body may fail to parse ([None]). *)
Inductive FetchResult :=
| NetworkError
| Response (ok : bool) (body : option Body).

(** What [loginUser] resolves to: [{ success: true }] or [{ error: e }]. *)
Inductive LoginResult :=
| LoginSuccess
| LoginError (message : option string).

(** [chrome.storage.local.set({ token: t, username: u })]: a property whose
    value is [undefined] is not written. *)
Definition set_session (t : option string) (u : string) (s : Storage) : Storage :=
  {| token := match t with Some _ => t | None => token s end;
     username := Some u;
     websiteTime := websiteTime s |}.

(** What [registerUser] resolves to: the parsed body of the backend's
    answer, forwarded as it is, or [{ error: message }]. *)
Inductive RegisterResult :=
| RegisterBody (body : Body)
| RegisterError (message : string).

(** A request of the popup: [{ action, username, password }]. *)
Record Message := {
  action : string;
  msg_username : string;
  msg_password : string
}.

(** What the message listener hands to [sendResponse]. *)
Inductive Reply :=
| ReplyRegister (r : RegisterResult)
| ReplyLogin (r : LoginResult).

(** Events delivered to the tracker by the browser. *)
Inductive Event :=
| Activated (tabId : Z)
| Updated (tabId : Z) (changeInfo : ChangeInfo) (tab : Tab)
| Removed (tabId : Z)
| FocusChanged (windowId : Z)
| Alarm (name : string).

(** ** src/extension/background.js *)

Module Ext.
Section Script.
Variable hostname : string -> option string.

(** [let lastTabId = null; let startTime = null;] and the persisted store. *)
Record State := {
  lastTabId : option Z;
  startTime : option Z;
  storage : Storage
}.

Definition init (s : Storage) : State :=
  {| lastTabId := None; startTime := None; storage := s |}.

Definition with_ledger (wt : gmap string Entry) (st : State) : State :=
  {| lastTabId := lastTabId st; startTime := startTime st;
     storage := set_websiteTime wt (storage st) |}.

(** lines 40-74 *)
Definition saveTimeForLastTab (env : Env) (st : State) : State :=
  if truthy_num (lastTabId st) && truthy_num (startTime st) then
    match lastTabId st, startTime st with
    | Some tid, Some t0 =>
        let duration := duration_of (now env) t0 in
        if duration <=? 0 then st
        else
          match tabs_get env tid with
          | Some tab =>
              if trackable_url (tab_url tab) then
                match tab_url tab ≫= hostname with
                | Some url =>
                    if commit_get_ok env then
                      if commit_set_ok env then
                        with_ledger (merge_overwrite url (tab_title tab) duration
                                       (websiteTime (storage st))) st
                      else st
                    else st
                | None => st
                end
              else st
          | None => st
          end
    | _, _ => st
    end
  else st.

(** lines 21-30 *)
Definition handleTabChange (env : Env) (tabId : Z) (st : State) : State :=
  let st1 :=
    if bool_decide (lastTabId st ≠ None) && bool_decide (startTime st ≠ None)
       && bool_decide (lastTabId st ≠ Some tabId)
    then saveTimeForLastTab env st else st in
  {| lastTabId := Some tabId; startTime := Some (now_start env);
     storage := storage st1 |}.

(** lines 32-38 *)
Definition handleTabRemoved (env : Env) (tabId : Z) (st : State) : State :=
  if bool_decide (Some tabId = lastTabId st) then
    let st1 := saveTimeForLastTab env st in
    {| lastTabId := None; startTime := None; storage := storage st1 |}
  else st.

(** lines 12-16 *)
Definition onUpdated (env : Env) (tabId : Z) (changeInfo : ChangeInfo)
    (st : State) : State :=
  if truthy_str (ci_url changeInfo) then handleTabChange env tabId st else st.

(** lines 107-138: the token is read again from the store; nothing is
    returned to the caller. *)
Definition sendTimeDataToBackend (st : State) (kv : string * Entry) : list Request :=
  if truthy_str (token (storage st)) then [request_of (token (storage st)) kv]
  else [].

(** lines 78-105 *)
Definition onAlarm (env : Env) (name : string) (st : State) : State * list Request :=
  if String.eqb name "sendDataAlarm" then
    let st1 := saveTimeForLastTab env st in
    if sync_get_ok env then
      let wt := websiteTime (storage st1) in
      if negb (truthy_str (token (storage st1))) then (st1, [])
      else
        let reqs :=
          flat_map (sendTimeDataToBackend st1)
            (filter (fun kv : string * Entry => 0 < totalTime kv.2) (map_to_list wt)) in
        if sync_set_ok env then (with_ledger ∅ st1, reqs) else (st1, reqs)
    else (st1, [])
  else (st, []).

(** lines 158-179; [chrome.storage.local.set] is not awaited here, so a
    failed write is not reported in the result. *)
Definition loginUser (resp : FetchResult) (set_ok : bool) (user : string)
    (s : Storage) : Storage * LoginResult :=
  match resp with
  | NetworkError => (s, LoginError (Some "Could not connect to the server"))
  | Response _ None => (s, LoginError (Some "Could not connect to the server"))
  | Response _ (Some BodyNull) =>
      (s, LoginError (Some "Could not connect to the server"))
  | Response true (Some (BodyObj t _)) =>
      (if set_ok then set_session t user s else s, LoginSuccess)
  | Response false (Some (BodyObj _ e)) => (s, LoginError e)
  end.

(** The listeners registered at lines 9-19 and 78. *)
Definition handle (env : Env) (ev : Event) (st : State) : State * list Request :=
  match ev with
  | Activated tabId => (handleTabChange env tabId st, [])
  | Updated tabId changeInfo _ => (onUpdated env tabId changeInfo st, [])
  | Removed tabId => (handleTabRemoved env tabId st, [])
  | FocusChanged _ => (st, [])
  | Alarm name => onAlarm env name st
  end.

Fixpoint run (trace : list (Env * Event)) (st : State) : State * list Request :=
  match trace with
  | [] => (st, [])
  | (env, ev) :: rest =>
      let '(st1, r1) := handle env ev st in
      let '(st2, r2) := run rest st1 in
      (st2, r1 ++ r2)
  end.

(** lines 141-156: the body is forwarded whatever the status of the
    response. *)
Definition registerUser (resp : FetchResult) : RegisterResult :=
  match resp with
  | NetworkError => RegisterError "Could not connect to the server"
  | Response _ None => RegisterError "Could not connect to the server"
  | Response _ (Some b) => RegisterBody b
  end.

(** lines 182-191: the message listener.  A request with any other
    action gets no answer. *)
Definition onMessage (resp : FetchResult) (set_ok : bool) (request : Message)
    (s : Storage) : Storage * option Reply :=
  if String.eqb (action request) "register" then
    (s, Some (ReplyRegister (registerUser resp)))
  else if String.eqb (action request) "login" then
    let '(s1, r) := loginUser resp set_ok (msg_username request) s in
    (s1, Some (ReplyLogin r))
  else (s, None).

End Script.
End Ext.

(** ** src/unnamed/part_001, first script (lines 1-209)

    The tracker of this revision.  Its authentication functions repeat
    those of [Ext].  Its alarm listener is not embedded: the commit it
    starts answers through a callback that nobody awaits, so the listener
    reads and clears the ledger while that commit is still in flight, and
    the outcome depends on an interleaving that a run-to-completion
    handler cannot express. *)

Module Part001a.
Section Script.
Variable hostname : string -> option string.

Record State := {
  lastTabId : option Z;
  startTime : option Z;
  storage : Storage
}.

Definition init (s : Storage) : State :=
  {| lastTabId := None; startTime := None; storage := s |}.

Definition with_ledger (wt : gmap string Entry) (st : State) : State :=
  {| lastTabId := lastTabId st; startTime := startTime st;
     storage := set_websiteTime wt (storage st) |}.

(** lines 51-86.  The look-up answers through a callback; a set
    [chrome.runtime.lastError] is the [None] of [tabs_get].  The callback's
    effect on the store is taken at the point of the call, which is what
    the store holds once the callback has run; the callers embedded below
    only assign the slot variables afterwards and never read the store. *)
Definition saveTimeForLastTab (env : Env) (tabId : option Z) (st : State) : State :=
  if negb (truthy_num tabId) || negb (truthy_num (startTime st)) then st
  else
    match tabId, startTime st with
    | Some tid, Some t0 =>
        let duration := duration_of (now env) t0 in
        if duration <=? 0 then st
        else
          match tabs_get env tid with
          | None => st
          | Some tab =>
              if trackable_url (tab_url tab) then
                match tab_url tab ≫= hostname with
                | Some url =>
                    if commit_get_ok env then
                      if commit_set_ok env then
                        with_ledger (merge_overwrite url (tab_title tab) duration
                                       (websiteTime (storage st))) st
                      else st
                    else st
                | None => st
                end
              else st
          end
    | _, _ => st
    end.

(** lines 9-23 *)
Definition processTabChange (env : Env) (tabId : Z) (st : State) : State :=
  if bool_decide (tabId = TAB_ID_NONE) then st
  else
    let st1 :=
      if bool_decide (lastTabId st ≠ None) && bool_decide (startTime st ≠ None)
         && bool_decide (lastTabId st ≠ Some tabId)
      then saveTimeForLastTab env (lastTabId st) st else st in
    {| lastTabId := Some tabId; startTime := Some (now_start env);
       storage := storage st1 |}.

(** lines 31-40 *)
Definition onUpdated (env : Env) (tabId : Z) (changeInfo : ChangeInfo) (tab : Tab)
    (st : State) : State :=
  if bool_decide (ci_status changeInfo = Some "complete")
     && trackable_url (tab_url tab)
  then processTabChange env tabId st else st.

(** lines 43-49 *)
Definition onRemoved (env : Env) (tabId : Z) (st : State) : State :=
  if bool_decide (Some tabId = lastTabId st) then
    let st1 := saveTimeForLastTab env (Some tabId) st in
    {| lastTabId := None; startTime := None; storage := storage st1 |}
  else st.

End Script.
End Part001a.

(** ** src/unnamed/part_001, second script (lines 211-415) *)

Module Part001b.
Section Script.
Variable hostname : string -> option string.

Record State := {
  lastTabId : option Z;
  startTime : option Z;
  storage : Storage
}.

Definition init (s : Storage) : State :=
  {| lastTabId := None; startTime := None; storage := s |}.

Definition with_ledger (wt : gmap string Entry) (st : State) : State :=
  {| lastTabId := lastTabId st; startTime := startTime st;
     storage := set_websiteTime wt (storage st) |}.

(** lines 252-295.  The look-up is wrapped in a promise that rejects on
    [chrome.runtime.lastError]; the rejection is caught and ignored. *)
Definition saveTimeForLastTab (env : Env) (tabId : option Z) (st : State) : State :=
  if negb (truthy_num tabId) || negb (truthy_num (startTime st)) then st
  else
    match tabId, startTime st with
    | Some tid, Some t0 =>
        let duration := duration_of (now env) t0 in
        if duration <=? 0 then st
        else
          match tabs_get env tid with
          | None => st
          | Some tab =>
              if trackable_url (tab_url tab) then
                match tab_url tab ≫= hostname with
                | Some url =>
                    if commit_get_ok env then
                      if commit_set_ok env then
                        with_ledger (merge_overwrite url (tab_title tab) duration
                                       (websiteTime (storage st))) st
                      else st
                    else st
                | None => st
                end
              else st
          end
    | _, _ => st
    end.

(** lines 217-228 *)
Definition processTabChange (env : Env) (tabId : Z) (st : State) : State :=
  if bool_decide (tabId = TAB_ID_NONE) then st
  else
    let st1 :=
      if bool_decide (lastTabId st ≠ None) && bool_decide (startTime st ≠ None)
         && bool_decide (lastTabId st ≠ Some tabId)
      then saveTimeForLastTab env (lastTabId st) st else st in
    {| lastTabId := Some tabId; startTime := Some (now_start env);
       storage := storage st1 |}.

(** lines 234-242 *)
Definition onUpdated (env : Env) (tabId : Z) (changeInfo : ChangeInfo) (tab : Tab)
    (st : State) : State :=
  if bool_decide (ci_status changeInfo = Some "complete")
     && trackable_url (tab_url tab)
  then processTabChange env tabId st else st.

(** lines 244-250: the commit is attempted for every removed tab, before
    the comparison with [lastTabId]. *)
Definition onRemoved (env : Env) (tabId : Z) (st : State) : State :=
  let st1 := saveTimeForLastTab env (Some tabId) st in
  if bool_decide (Some tabId = lastTabId st1) then
    {| lastTabId := None; startTime := None; storage := storage st1 |}
  else st1.

(** lines 333-364: the token is read again from the store; nothing is
    returned to the caller. *)
Definition sendTimeDataToBackend (st : State) (kv : string * Entry) : list Request :=
  if truthy_str (token (storage st)) then [request_of (token (storage st)) kv]
  else [].

(** lines 299-331: the sends are started together and awaited with
    [Promise.all]; the ledger is then replaced by the empty object. *)
Definition onAlarm (env : Env) (name : string) (st : State) : State * list Request :=
  if String.eqb name "sendDataAlarm" then
    let st1 := saveTimeForLastTab env (lastTabId st) st in
    if sync_get_ok env then
      let wt := websiteTime (storage st1) in
      if negb (truthy_str (token (storage st1))) then (st1, [])
      else
        let sendPromises :=
          flat_map (sendTimeDataToBackend st1)
            (filter (fun kv : string * Entry => 0 < totalTime kv.2) (map_to_list wt)) in
        if sync_set_ok env then (with_ledger ∅ st1, sendPromises)
        else (st1, sendPromises)
    else (st1, [])
  else (st, []).

End Script.
End Part001b.

(** ** src/unnamed/part_000 *)

Module Part000.
Section Script.
Variable hostname : string -> option string.

(** lines 8-13: [activeTabInfo]. *)
Record ActiveTabInfo := {
  ati_id : option Z;
  ati_url : option string;
  ati_title : option string;
  ati_startTime : option Z
}.

Record State := {
  activeTabInfo : ActiveTabInfo;
  storage : Storage
}.

Definition noTab : ActiveTabInfo :=
  {| ati_id := None; ati_url := None; ati_title := None; ati_startTime := None |}.

Definition init (s : Storage) : State :=
  {| activeTabInfo := noTab; storage := s |}.

Definition with_ledger (wt : gmap string Entry) (st : State) : State :=
  {| activeTabInfo := activeTabInfo st;
     storage := set_websiteTime wt (storage st) |}.

(** lines 23-55.  [new URL(null)] throws like any other unparsable
    address; the [catch] swallows it. *)
Definition saveTimeForLastTab (env : Env) (st : State) : State :=
  let info := activeTabInfo st in
  if negb (truthy_num (ati_id info)) || negb (truthy_num (ati_startTime info))
  then st
  else
    match ati_startTime info with
    | Some t0 =>
        let duration := duration_of (now env) t0 in
        let st1 :=
          if 0 <? duration then
            match ati_url info ≫= hostname with
            | Some url =>
                if commit_get_ok env then
                  if commit_set_ok env then
                    with_ledger (merge_keep_title url (ati_title info) duration
                                   (websiteTime (storage st))) st
                  else st
                else st
            | None => st
            end
          else st in
        {| activeTabInfo := noTab; storage := storage st1 |}
    | None => st
    end.

(** lines 61-84 *)
Definition processTabChange (env : Env) (tabId : Z) (st : State) : State :=
  if bool_decide (tabId = TAB_ID_NONE) then st
  else
    let st1 := saveTimeForLastTab env st in
    match tabs_get env tabId with
    | Some tab =>
        if trackable_url (tab_url tab) then
          {| activeTabInfo :=
               {| ati_id := Some tabId; ati_url := tab_url tab;
                  ati_title := tab_title tab;
                  ati_startTime := Some (now_start env) |};
             storage := storage st1 |}
        else st1
    | None => st1
    end.

(** lines 96-100 *)
Definition onUpdated (env : Env) (tabId : Z) (changeInfo : ChangeInfo) (tab : Tab)
    (st : State) : State :=
  if tab_active tab && bool_decide (ci_status changeInfo = Some "complete")
  then processTabChange env tabId st else st.

(** lines 103-108 *)
Definition onRemoved (env : Env) (tabId : Z) (st : State) : State :=
  if bool_decide (Some tabId = ati_id (activeTabInfo st))
  then saveTimeForLastTab env st else st.

(** lines 111-122 *)
Definition onFocusChanged (env : Env) (windowId : Z) (st : State) : State :=
  if bool_decide (windowId = WINDOW_ID_NONE) then saveTimeForLastTab env st
  else
    match tabs_query env windowId with
    | Some tab => processTabChange env (tab_id tab) st
    | None => st
    end.

(** lines 175-202: [true] exactly when the request went through and the
    response was [ok]. *)
Definition sendTimeDataToBackend (env : Env) (tok : option string)
    (kv : string * Entry) : bool :=
  fetch_ok env (request_of tok kv).

(** lines 133-169 *)
Definition onAlarm (env : Env) (name : string) (st : State) : State * list Request :=
  if String.eqb name "sendDataAlarm" then
    let st1 := saveTimeForLastTab env st in
    if sync_get_ok env then
      let tok := token (storage st1) in
      let wt := websiteTime (storage st1) in
      if negb (truthy_str tok) || bool_decide (size wt = 0%nat) then (st1, [])
      else
        let entries := map_to_list wt in
        let reqs := map (request_of tok) entries in
        let successfullySyncedUrls :=
          map fst (filter (fun kv => sendTimeDataToBackend env tok kv = true) entries) in
        if bool_decide (successfullySyncedUrls ≠ []) then
          let newWebsiteTime :=
            fold_left (fun m url => delete url m) successfullySyncedUrls wt in
          if sync_set_ok env then (with_ledger newWebsiteTime st1, reqs)
          else (st1, reqs)
        else (st1, reqs)
    else (st1, [])
  else (st, []).

(** lines 234-254; the write is awaited inside the [try]. *)
Definition loginUser (resp : FetchResult) (set_ok : bool) (user : string)
    (s : Storage) : Storage * LoginResult :=
  match resp with
  | NetworkError => (s, LoginError (Some "Could not connect to the server."))
  | Response _ None => (s, LoginError (Some "Could not connect to the server."))
  | Response _ (Some BodyNull) =>
      (s, LoginError (Some "Could not connect to the server."))
  | Response true (Some (BodyObj t _)) =>
      if set_ok then (set_session t user s, LoginSuccess)
      else (s, LoginError (Some "Could not connect to the server."))
  | Response false (Some (BodyObj _ e)) => (s, LoginError e)
  end.

(** The listeners registered at lines 91-133. *)
Definition handle (env : Env) (ev : Event) (st : State) : State * list Request :=
  match ev with
  | Activated tabId => (processTabChange env tabId st, [])
  | Updated tabId changeInfo tab => (onUpdated env tabId changeInfo tab st, [])
  | Removed tabId => (onRemoved env tabId st, [])
  | FocusChanged windowId => (onFocusChanged env windowId st, [])
  | Alarm name => onAlarm env name st
  end.

Fixpoint run (trace : list (Env * Event)) (st : State) : State * list Request :=
  match trace with
  | [] => (st, [])
  | (env, ev) :: rest =>
      let '(st1, r1) := handle env ev st in
      let '(st2, r2) := run rest st1 in
      (st2, r1 ++ r2)
  end.

(** lines 220-232: the body is forwarded whatever the status of the
    response. *)
Definition registerUser (resp : FetchResult) : RegisterResult :=
  match resp with
  | NetworkError => RegisterError "Could not connect to the server."
  | Response _ None => RegisterError "Could not connect to the server."
  | Response _ (Some b) => RegisterBody b
  end.

(** lines 209-218: the message listener.  A request with any other
    action gets no answer. *)
Definition onMessage (resp : FetchResult) (set_ok : bool) (request : Message)
    (s : Storage) : Storage * option Reply :=
  if String.eqb (action request) "register" then
    (s, Some (ReplyRegister (registerUser resp)))
  else if String.eqb (action request) "login" then
    let '(s1, r) := loginUser resp set_ok (msg_username request) s in
    (s1, Some (ReplyLogin r))
  else (s, None).

End Script.
End Part000.

(** ** src/unnamed/part_002 (popup.js)

    The popup script only assigns to the [style.display] of four
    containers and to the text of two elements; [Dom] holds exactly
    those.  What the page shows before the script runs comes from the
    HTML file and is left arbitrary. *)

Module Popup.

Record Dom := {
  authContainer : string;           (* style.display *)
  statusContainer : string;         (* style.display *)
  statusMessage : string;           (* textContent *)
  messageDiv : string;              (* textContent *)
  loginFormContainer : string;      (* style.display *)
  registerFormContainer : string    (* style.display *)
}.

(** lines 21-34 *)
Definition updateUI (isLoggedIn : bool) (username : string) (d : Dom) : Dom :=
  if isLoggedIn then
    {| authContainer := "none";
       statusContainer := "block";
       statusMessage := String.append "Hello, " (String.append username "!");
       messageDiv := messageDiv d;
       loginFormContainer := loginFormContainer d;
       registerFormContainer := registerFormContainer d |}
  else
    {| authContainer := "block";
       statusContainer := "none";
       statusMessage := statusMessage d;
       messageDiv := "";
       loginFormContainer := "block";
       registerFormContainer := "none" |}.

(** lines 37-43: the check made when the popup opens. *)
Definition onContentLoaded (s : Storage) (d : Dom) : Dom :=
  match username s with
  | Some u => if truthy_str (Some u) then updateUI true u d else updateUI false "" d
  | None => updateUI false "" d
  end.

(** lines 46-50 *)
Definition showRegister (d : Dom) : Dom :=
  {| authContainer := authContainer d; statusContainer := statusContainer d;
     statusMessage := statusMessage d; messageDiv := messageDiv d;
     loginFormContainer := "none"; registerFormContainer := "block" |}.

(** lines 52-56 *)
Definition showLogin (d : Dom) : Dom :=
  {| authContainer := authContainer d; statusContainer := statusContainer d;
     statusMessage := statusMessage d; messageDiv := messageDiv d;
     loginFormContainer := "block"; registerFormContainer := "none" |}.

Definition set_message (m : string) (d : Dom) : Dom :=
  {| authContainer := authContainer d; statusContainer := statusContainer d;
     statusMessage := statusMessage d; messageDiv := m;
     loginFormContainer := loginFormContainer d;
     registerFormContainer := registerFormContainer d |}.

(** lines 60-64: the form is submitted. *)
Definition loginSubmit (d : Dom) : Dom := set_message "Logging in..." d.

(** lines 68-80: the callback of [sendMessage].  [None] is a set
    [chrome.runtime.lastError]: the background gave no answer. *)
Definition loginResponse (username : string) (response : option LoginResult)
    (d : Dom) : Dom :=
  match response with
  | None =>
      set_message
        "Error: Could not connect to the extension background. Please try again." d
  | Some LoginSuccess => updateUI true username (set_message "" d)
  | Some (LoginError e) =>
      set_message (match e with
                   | Some m => if truthy_str (Some m) then m else "Login failed."
                   | None => "Login failed."
                   end) d
  end.

(** lines 87-91 *)
Definition registerSubmit (d : Dom) : Dom := set_message "Registering..." d.

(** lines 95-110.  A forwarded body that is [null] makes the property
    read throw: the callback stops and the page stays as it was. *)
Definition registerResponse (response : option RegisterResult) (d : Dom) : Dom :=
  match response with
  | None =>
      set_message
        "Error: Could not connect to the extension background. Please try again." d
  | Some (RegisterBody BodyNull) => d
  | Some (RegisterError m) =>
      if truthy_str (Some m) then set_message m d
      else showLogin (set_message "User registered successfully!" d)
  | Some (RegisterBody (BodyObj _ e)) =>
      match e with
      | Some m =>
          if truthy_str (Some m) then set_message m d
          else showLogin (set_message "User registered successfully!" d)
      | None => showLogin (set_message "User registered successfully!" d)
      end
  end.

(** lines 116-120: [chrome.storage.local.remove(["token", "username"])],
    then the view of a logged-out user. *)
Definition logout (s : Storage) (d : Dom) : Storage * Dom :=
  ({| token := None; username := None; websiteTime := websiteTime s |},
   updateUI false "" d).

(** What the user does in the popup and what comes back to it. *)
Inductive Action :=
| Opened
| ShowRegisterClicked
| ShowLoginClicked
| LoginSubmitted
| LoginAnswered (username : string) (response : option LoginResult)
| RegisterSubmitted
| RegisterAnswered (response : option RegisterResult)
| LogoutClicked.

(** The listeners registered at lines 3-120, on the store and the page.
    The answers are whatever the background sent; the store is changed by
    the popup itself only on logout. *)
Definition step (a : Action) (sd : Storage * Dom) : Storage * Dom :=
  match a with
  | Opened => (sd.1, onContentLoaded sd.1 sd.2)
  | ShowRegisterClicked => (sd.1, showRegister sd.2)
  | ShowLoginClicked => (sd.1, showLogin sd.2)
  | LoginSubmitted => (sd.1, loginSubmit sd.2)
  | LoginAnswered u r => (sd.1, loginResponse u r sd.2)
  | RegisterSubmitted => (sd.1, registerSubmit sd.2)
  | RegisterAnswered r => (sd.1, registerResponse r sd.2)
  | LogoutClicked => logout sd.1 sd.2
  end.

Definition run (actions : list Action) (sd : Storage * Dom) : Storage * Dom :=
  fold_left (fun acc a => step a acc) actions sd.

End Popup.

(** ** Concrete scenarios used by the examples *)

Definition tab_of (i : Z) (u t : string) : Tab :=
  {| tab_id := i; tab_url := Some u; tab_title := Some t; tab_active := true |}.

(** Three open tabs: two web pages and one browser-internal page. *)
Definition demo_tabs (i : Z) : option Tab :=
  if Z.eqb i 1 then Some (tab_of 1 "https://a.example/x" "A")
  else if Z.eqb i 2 then Some (tab_of 2 "https://b.example/" "B")
  else if Z.eqb i 3 then Some (tab_of 3 "chrome://settings" "Settings")
  else None.

Definition no_tabs (i : Z) : option Tab := None.

(** An environment in which storage always answers and both clock reads
    return [t]. *)
Definition env_at (t : Z) (tabs : Z -> option Tab) (fetch : Request -> bool) : Env :=
  {| now := t; now_start := t; tabs_get := tabs; tabs_query := fun _ => None;
     commit_get_ok := true; commit_set_ok := true;
     sync_get_ok := true; sync_set_ok := true; fetch_ok := fetch |}.

(** The backend accepts the data of a.example and rejects everything else. *)
Definition only_a (r : Request) : bool := String.eqb (website_url r) "a.example".

Definition ledgerAB : gmap string Entry :=
  <["a.example" := {| title := Some "A"; totalTime := 10 |}]>
    (<["b.example" := {| title := Some "B"; totalTime := 20 |}]> ∅).

Definition logged_in (wt : gmap string Entry) : Storage :=
  {| token := Some "tok"; username := Some "u"; websiteTime := wt |}.

Definition logged_out (wt : gmap string Entry) : Storage :=
  {| token := None; username := None; websiteTime := wt |}.

(** Accumulated seconds recorded for a site key; 0 when there is no entry
    or when the entry's total is not a number. *)
Definition total_of (k : string) (wt : gmap string Entry) : Z :=
  match wt !! k with
  | Some e => num_val (totalTime e)
  | None => 0
  end.

(** background.js while tab 1 (a.example) has been timed since stamp 1000. *)
Definition ext_timing_a (s : Storage) : Ext.State :=
  {| Ext.lastTabId := Some 1; Ext.startTime := Some 1000; Ext.storage := s |}.

(** part_000 in the same situation, with the snapshot it caches. *)
Definition part000_timing_a (s : Storage) : Part000.State :=
  {| Part000.activeTabInfo :=
       {| Part000.ati_id := Some 1;
          Part000.ati_url := Some "https://a.example/x";
          Part000.ati_title := Some "A";
          Part000.ati_startTime := Some 1000 |};
     Part000.storage := s |}.



(** The user opens tab 1 at 1 s, the alarm fires at 11 s, and the user
    moves to tab 2 at 16 s. *)
Definition trace_with_tick : list (Env * Event) :=
  [ (env_at 1000 demo_tabs only_a, Activated 1);
    (env_at 11000 demo_tabs only_a, Alarm "sendDataAlarm");
    (env_at 16000 demo_tabs only_a, Activated 2) ].

(** Tab 1 shows a.example under two successive titles. *)
Definition tabs_titled (t : string) (i : Z) : option Tab :=
  if Z.eqb i 1 then Some (tab_of 1 "https://a.example/x" t)
  else if Z.eqb i 2 then Some (tab_of 2 "https://b.example/" "B")
  else None.

(** Five seconds on a.example titled "First", then seven seconds on it
    titled "Second"; the window loses focus after each visit. *)
Definition trace_two_titles : list (Env * Event) :=
  [ (env_at 1000 (tabs_titled "First") only_a, Activated 1);
    (env_at 6000 (tabs_titled "First") only_a, FocusChanged WINDOW_ID_NONE);
    (env_at 6000 (tabs_titled "Second") only_a, Activated 1);
    (env_at 13000 (tabs_titled "Second") only_a, FocusChanged WINDOW_ID_NONE) ].

(** The same two visits for background.js, which has no focus listener:
    each visit ends when the user moves to tab 2. *)
Definition trace_two_titles_ext : list (Env * Event) :=
  [ (env_at 1000 (tabs_titled "First") only_a, Activated 1);
    (env_at 6000 (tabs_titled "First") only_a, Activated 2);
    (env_at 6000 (tabs_titled "Second") only_a, Activated 1);
    (env_at 13000 (tabs_titled "Second") only_a, Activated 2) ].

(** ** Vocabulary of the statements *)

(** part_000 tests its slot with [id && startTime]; this is that test. *)
Definition slot_active (info : Part000.ActiveTabInfo) : bool :=
  truthy_num (Part000.ati_id info) && truthy_num (Part000.ati_startTime info).

(** The same test on the two variables of background.js. *)
Definition ext_slot_active (st : Ext.State) : bool :=
  truthy_num (Ext.lastTabId st) && truthy_num (Ext.startTime st).

(** Well-formed slots: identifier and start stamp are set together. *)
Definition ext_slot_wf (st : Ext.State) : Prop :=
  (Ext.lastTabId st = None /\ Ext.startTime st = None) \/
  (exists i t, Ext.lastTabId st = Some i /\ Ext.startTime st = Some t).

Definition part000_slot_wf (st : Part000.State) : Prop :=
  Part000.activeTabInfo st = Part000.noTab \/
  (exists i t u,
     Part000.ati_id (Part000.activeTabInfo st) = Some i /\
     Part000.ati_startTime (Part000.activeTabInfo st) = Some t /\
     Part000.ati_url (Part000.activeTabInfo st) = Some u /\
     trackable_url (Some u) = true).

(** [ledger_le wt wt']: every entry of [wt] is still in [wt'], with a total
    that is not smaller. *)
Definition ledger_le (wt wt' : gmap string Entry) : Prop :=
  forall k e, wt !! k = Some e ->
    exists e', wt' !! k = Some e' /\ num_le (totalTime e) (totalTime e').


(** The site whose context part_000 is timing in a state, if any. *)
Definition part000_timed_site (hostname : string -> option string)
    (st : Part000.State) : option string :=
  if slot_active (Part000.activeTabInfo st)
  then Part000.ati_url (Part000.activeTabInfo st) ≫= hostname
  else None.

(** Time during which a context of site [k] was the timed one along a
    trace.  [hi] is the stamp at which the previous handler finished; the
    state it left holds until the current handler finishes, at
    [now_start], and decides to whom that gap belongs.  The gaps are
    disjoint by construction. *)
Fixpoint part000_timed_ms (hostname : string -> option string) (k : string)
    (hi : Z) (trace : list (Env * Event)) (st : Part000.State) : Z :=
  match trace with
  | [] => 0
  | (env, ev) :: rest =>
      (if bool_decide (part000_timed_site hostname st = Some k)
       then now_start env - hi else 0)
      + part000_timed_ms hostname k (now_start env) rest
          (Part000.handle hostname env ev st).1
  end.

(** Clock reads never go backwards: [hi] is the latest stamp read so far. *)
Fixpoint clock_ok (hi : Z) (trace : list (Env * Event)) : Prop :=
  match trace with
  | [] => True
  | (env, _) :: rest =>
      hi <= now env /\ now env <= now_start env /\ clock_ok (now_start env) rest
  end.

(** Milliseconds the open slot has accrued for site [k] at stamp [x]. *)
Definition part000_accrued (hostname : string -> option string) (k : string)
    (x : Z) (st : Part000.State) : Z :=
  if bool_decide (part000_timed_site hostname st = Some k) then
    match Part000.ati_startTime (Part000.activeTabInfo st) with
    | Some t => x - t
    | None => 0
    end
  else 0.

(** The open slot started no later than [hi], and the total of [k] is not
    negative. *)
Definition part000_inv (k : string) (hi : Z) (st : Part000.State) : Prop :=
  (forall t, slot_active (Part000.activeTabInfo st) = true ->
             Part000.ati_startTime (Part000.activeTabInfo st) = Some t -> t <= hi) /\
  0 <= total_of k (websiteTime (Part000.storage st)).

(** One handler invocation keeps the invariant and pays for what it adds
    to the total of [k] out of the time accrued by the slot, up to the
    half second of rounding. *)
Definition good_step (hostname : string -> option string) (k : string)
    (env : Env) (st st' : Part000.State) : Prop :=
  part000_inv k (now_start env) st' /\
  1000 * total_of k (websiteTime (Part000.storage st'))
    + part000_accrued hostname k (now_start env) st'
  <= 1000 * total_of k (websiteTime (Part000.storage st))
    + part000_accrued hostname k (now_start env) st + 500.

(** The stamp at which the last handler of a trace finished. *)
Fixpoint last_stamp (hi : Z) (trace : list (Env * Event)) : Z :=
  match trace with
  | [] => hi
  | (env, _) :: rest => last_stamp (now_start env) rest
  end.

(** ** Further vocabulary: runs, the popup and the end-to-end exchanges *)

(** Every entry carries a positive total. *)
Definition ledger_pos (wt : gmap string Entry) : Prop :=
  forall k e, wt !! k = Some e -> 0 < totalTime e.

(** Traces in which the alarm never fires. *)
Definition is_alarm (ev : Event) : bool :=
  match ev with
  | Alarm _ => true
  | _ => false
  end.

Definition alarm_free (trace : list (Env * Event)) : Prop :=
  Forall (fun p : Env * Event => is_alarm p.2 = false) trace.

(** Milliseconds elapsed at stamp [x] since background.js stamped its
    slot. *)
Definition ext_accrued (x : Z) (st : Ext.State) : Z :=
  match Ext.startTime st with
  | Some t => x - t
  | None => 0
  end.

(** The stamp of background.js is no later than [hi], and the total of
    [k] is not negative. *)
Definition ext_inv (k : string) (hi : Z) (st : Ext.State) : Prop :=
  (forall t, Ext.startTime st = Some t -> t <= hi) /\
  0 <= total_of k (websiteTime (Ext.storage st)).

(** The popup shows either the forms or the greeting, never both and
    never neither. *)
Definition exclusive_view (d : Popup.Dom) : Prop :=
  (Popup.authContainer d = "block" /\ Popup.statusContainer d = "none") \/
  (Popup.authContainer d = "none" /\ Popup.statusContainer d = "block").

(** A login from the popup answered by part_000: the form is submitted,
    the message listener runs [loginUser], and its result comes back to
    the popup's callback. *)
Definition part000_login_flow (resp : FetchResult) (set_ok : bool) (user : string)
    (sd : Storage * Popup.Dom) : Storage * Popup.Dom :=
  let r := Part000.loginUser resp set_ok user sd.1 in
  (r.1, Popup.loginResponse user (Some r.2) (Popup.loginSubmit sd.2)).

(** A registration from the popup answered by part_000. *)
Definition part000_register_flow (resp : FetchResult) (d : Popup.Dom) : Popup.Dom :=
  Popup.registerResponse (Some (Part000.registerUser resp)) (Popup.registerSubmit d).

(** A page as the HTML file might leave it before the script runs. *)
Definition blank_dom : Popup.Dom :=
  {| Popup.authContainer := ""; Popup.statusContainer := "";
     Popup.statusMessage := ""; Popup.messageDiv := "";
     Popup.loginFormContainer := ""; Popup.registerFormContainer := "" |}.

(** An environment like [env_at] whose storage refuses the commit's
    write. *)
Definition env_write_fails (t : Z) (tabs : Z -> option Tab) : Env :=
  {| now := t; now_start := t; tabs_get := tabs; tabs_query := fun _ => None;
     commit_get_ok := true; commit_set_ok := false;
     sync_get_ok := true; sync_set_ok := true; fetch_ok := only_a |}.

(** The user opens tab 1 at 1 s, moves to tab 2 at 6 s, and closes it at
    9 s; no alarm fires. *)
Definition trace_without_tick : list (Env * Event) :=
  [ (env_at 1000 demo_tabs only_a, Activated 1);
    (env_at 6000 demo_tabs only_a, Activated 2);
    (env_at 9000 demo_tabs only_a, Removed 2) ].

(** The site under which background.js would commit in an environment:
    the host of the URL the browser reports for the timed tab. *)
Definition ext_commit_site (hostname : string -> option string) (env : Env)
    (st : Ext.State) : option string :=
  match Ext.lastTabId st with
  | Some tid =>
      match tabs_get env tid with
      | Some tab => tab_url tab ≫= hostname
      | None => None
      end
  | None => None
  end.

(** background.js with the ledger {a.example: 10 s, b.example: 20 s} and
    a session, nothing being timed; the same for the scripts of
    part_001. *)
Definition part001a_idle (s : Storage) : Part001a.State :=
  {| Part001a.lastTabId := None; Part001a.startTime := None;
     Part001a.storage := s |}.

Definition part001b_idle (s : Storage) : Part001b.State :=
  {| Part001b.lastTabId := None; Part001b.startTime := None;
     Part001b.storage := s |}.

(** Every entry under a site key that is not a property name of
    [Object.prototype] carries a positive total. *)
Definition ledger_pos_ordinary (wt : gmap string Entry) : Prop :=
  forall k e, inherited_key k = false -> wt !! k = Some e -> 0 < totalTime e.

(** A tab on a host whose name is a property of [Object.prototype]. *)
Definition constructor_tabs (i : Z) : option Tab :=
  if Z.eqb i 1 then Some (tab_of 1 "https://constructor/x" "C") else None.

(** * Properties *)

(** Case analysis on every test of a handler body. *)
Ltac branches := repeat (case_match; simpl; try done).

(** ** Rounding of elapsed time *)

Lemma duration_of_bounds (t1 t0 : Z) :
  1000 * duration_of t1 t0 - 500 <= t1 - t0 < 1000 * duration_of t1 t0 + 500.
Proof.
  unfold duration_of.
  pose proof (Z.div_mod (t1 - t0 + 500) 1000 ltac:(lia)) as Hdm.
  pose proof (Z.mod_pos_bound (t1 - t0 + 500) 1000 ltac:(lia)) as Hb.
  lia.
Qed.

Lemma duration_of_whole_seconds (t1 t0 : Z) :
  (t1 - t0) mod 1000 = 0 -> 1000 * duration_of t1 t0 = t1 - t0.
Proof.
  intros Hm. unfold duration_of.
  apply Z.mod_divide in Hm; [| lia]. destruct Hm as [q Hq].
  rewrite Hq. replace (q * 1000 + 500) with (500 + q * 1000) by lia.
  rewrite Z.div_add by lia. rewrite Z.div_small by lia. lia.
Qed.

(** ** The two read-modify-write shapes of the ledger *)

Lemma proto_is_inherited (url : string) :
  String.eqb url "__proto__" = true -> inherited_key url = true.
Proof. intros H. apply String.eqb_eq in H. by subst url. Qed.

Lemma assign_entry_other url k e (wt : gmap string Entry) :
  url ≠ k -> assign_entry url e wt !! k = wt !! k.
Proof.
  intros Hne. unfold assign_entry. case_match; [done |].
  by rewrite lookup_insert_ne.
Qed.

Lemma assign_entry_ordinary url e (wt : gmap string Entry) :
  inherited_key url = false -> assign_entry url e wt = <[url := e]> wt.
Proof.
  intros Hord. unfold assign_entry.
  destruct (String.eqb url "__proto__") eqn:Hp.
  - apply proto_is_inherited in Hp. congruence.
  - by rewrite andb_false_r.
Qed.

Lemma assign_entry_own url e old (wt : gmap string Entry) :
  wt !! url = Some old -> assign_entry url e wt = <[url := e]> wt.
Proof.
  intros Hown. unfold assign_entry.
  rewrite bool_decide_eq_false_2; [done |]. by rewrite Hown.
Qed.

Lemma merge_overwrite_other url k t d (wt : gmap string Entry) :
  url ≠ k -> merge_overwrite url t d wt !! k = wt !! k.
Proof. intros Hne. unfold merge_overwrite. by apply assign_entry_other. Qed.

(** An own entry: the elapsed amount is added and the title replaced. *)
Lemma merge_overwrite_own url t d old (wt : gmap string Entry) :
  wt !! url = Some old ->
  merge_overwrite url t d wt !! url =
    Some {| title := t; totalTime := num_add (totalTime old) d |}.
Proof.
  intros Hown. unfold merge_overwrite, read_entry. rewrite Hown.
  rewrite (assign_entry_own _ _ old) by done. by rewrite lookup_insert_eq.
Qed.

(** No own entry under an ordinary key: the entry is created. *)
Lemma merge_overwrite_fresh url t d (wt : gmap string Entry) :
  wt !! url = None -> inherited_key url = false ->
  merge_overwrite url t d wt !! url = Some {| title := t; totalTime := Fin (0 + d) |}.
Proof.
  intros Hnone Hord. unfold merge_overwrite, read_entry. rewrite Hnone, Hord.
  rewrite assign_entry_ordinary by done. by rewrite lookup_insert_eq.
Qed.

(** No own entry under a key of [Object.prototype]: the total written is
    NaN, and nothing is written at all under "__proto__". *)
Lemma merge_overwrite_inherited url t d (wt : gmap string Entry) :
  wt !! url = None -> inherited_key url = true ->
  merge_overwrite url t d wt !! url =
    if String.eqb url "__proto__" then None
    else Some {| title := t; totalTime := NaN |}.
Proof.
  intros Hnone Hinh. unfold merge_overwrite, read_entry, assign_entry.
  rewrite Hnone, Hinh. rewrite bool_decide_eq_true_2 by done. simpl.
  destruct (String.eqb url "__proto__"); [done |]. by rewrite lookup_insert_eq.
Qed.

Lemma merge_keep_title_other url k t d (wt : gmap string Entry) :
  url ≠ k -> merge_keep_title url t d wt !! k = wt !! k.
Proof.
  intros Hne. unfold merge_keep_title.
  rewrite lookup_alter_ne by done.
  destruct (read_entry wt url); [done | done |]. by apply assign_entry_other.
Qed.

Lemma merge_keep_title_present url t d e (wt : gmap string Entry) :
  wt !! url = Some e ->
  merge_keep_title url t d wt !! url =
    Some {| title := title e; totalTime := num_add (totalTime e) d |}.
Proof.
  intros Hs. unfold merge_keep_title, read_entry. rewrite Hs.
  rewrite lookup_alter_eq, Hs. done.
Qed.

Lemma merge_keep_title_absent url t d (wt : gmap string Entry) :
  wt !! url = None -> inherited_key url = false ->
  merge_keep_title url t d wt !! url = Some {| title := t; totalTime := Fin (0 + d) |}.
Proof.
  intros Hn Hord. unfold merge_keep_title, read_entry. rewrite Hn, Hord.
  rewrite assign_entry_ordinary by done.
  rewrite lookup_alter_eq, lookup_insert_eq. done.
Qed.

(** No own entry under a key of [Object.prototype]: part_000 writes
    nothing. *)
Lemma merge_keep_title_inherited url t d (wt : gmap string Entry) :
  wt !! url = None -> inherited_key url = true ->
  merge_keep_title url t d wt = wt.
Proof.
  intros Hn Hinh. unfold merge_keep_title, read_entry. rewrite Hn, Hinh.
  apply map_eq. intros k. destruct (decide (url = k)) as [<- | Hne].
  - by rewrite lookup_alter_eq, Hn.
  - by rewrite lookup_alter_ne.
Qed.

(** The total of a key after a merge: never negative if it was not, and
    larger by at most the elapsed amount, for the merged key only. *)
Lemma merge_keep_title_total_bounds url k t d (wt : gmap string Entry) :
  0 <= d -> 0 <= total_of k wt ->
  0 <= total_of k (merge_keep_title url t d wt)
    <= total_of k wt + (if decide (url = k) then d else 0).
Proof.
  intros Hd Hnn. case_decide as Hk.
  - subst k. destruct (wt !! url) as [e |] eqn:He.
    + unfold total_of in *. rewrite (merge_keep_title_present _ _ _ e) by done.
      rewrite He in *. simpl in *. destruct (totalTime e); simpl in *; lia.
    + destruct (inherited_key url) eqn:Hinh.
      * rewrite merge_keep_title_inherited by done. lia.
      * unfold total_of in *. rewrite merge_keep_title_absent by done.
        rewrite He. simpl. lia.
  - unfold total_of in *. rewrite merge_keep_title_other by done. lia.
Qed.

Lemma merge_overwrite_total_bounds url k t d (wt : gmap string Entry) :
  0 <= d -> 0 <= total_of k wt ->
  0 <= total_of k (merge_overwrite url t d wt)
    <= total_of k wt + (if decide (url = k) then d else 0).
Proof.
  intros Hd Hnn. case_decide as Hk.
  - subst k. destruct (wt !! url) as [e |] eqn:He.
    + unfold total_of in *. rewrite (merge_overwrite_own _ _ _ e) by done.
      rewrite He in *. simpl in *. destruct (totalTime e); simpl in *; lia.
    + destruct (inherited_key url) eqn:Hinh.
      * unfold total_of in *. rewrite merge_overwrite_inherited by done.
        rewrite He. destruct (String.eqb url "__proto__"); simpl; lia.
      * unfold total_of in *. rewrite merge_overwrite_fresh by done.
        rewrite He. simpl. lia.
  - unfold total_of in *. rewrite merge_overwrite_other by done. lia.
Qed.

(** ** The commit operation, revision by revision *)

Section CommitFacts.
Variable hostname : string -> option string.

(** In background.js the commit never touches the slot or the session. *)
Lemma Ext_save_frame env st :
  Ext.lastTabId (Ext.saveTimeForLastTab hostname env st) = Ext.lastTabId st /\
  Ext.startTime (Ext.saveTimeForLastTab hostname env st) = Ext.startTime st /\
  token (Ext.storage (Ext.saveTimeForLastTab hostname env st)) = token (Ext.storage st) /\
  username (Ext.storage (Ext.saveTimeForLastTab hostname env st))
    = username (Ext.storage st).
Proof.
  unfold Ext.saveTimeForLastTab.
  branches.
Qed.

Lemma Ext_save_idle env st :
  Ext.lastTabId st = None -> Ext.saveTimeForLastTab hostname env st = st.
Proof. intros H. unfold Ext.saveTimeForLastTab. by rewrite H. Qed.


Lemma Ext_save_internal env st tid tab u :
  Ext.lastTabId st = Some tid -> tabs_get env tid = Some tab ->
  tab_url tab = Some u -> is_internal u = true ->
  Ext.saveTimeForLastTab hostname env st = st.
Proof.
  intros Hid Hget Hu Hint. unfold Ext.saveTimeForLastTab.
  rewrite Hid, Hget. unfold trackable_url. rewrite Hu, Hint.
  rewrite andb_false_r. repeat (case_match; try done).
Qed.

Lemma Ext_save_nonpositive env st t0 :
  Ext.startTime st = Some t0 -> duration_of (now env) t0 <= 0 ->
  Ext.saveTimeForLastTab hostname env st = st.
Proof.
  intros Ht Hd. unfold Ext.saveTimeForLastTab. rewrite Ht.
  apply Z.leb_le in Hd. rewrite Hd. repeat (case_match; try done).
Qed.




(** part_001, second script. *)
Lemma Part001b_save_unresolved env st tid :
  tabs_get env tid = None ->
  Part001b.saveTimeForLastTab hostname env (Some tid) st = st.
Proof.
  intros Hget. unfold Part001b.saveTimeForLastTab. rewrite Hget.
  repeat (case_match; try done).
Qed.

Lemma Part001b_save_frame env tabId st :
  Part001b.lastTabId (Part001b.saveTimeForLastTab hostname env tabId st)
    = Part001b.lastTabId st /\
  Part001b.startTime (Part001b.saveTimeForLastTab hostname env tabId st)
    = Part001b.startTime st.
Proof.
  unfold Part001b.saveTimeForLastTab.
  branches.
Qed.


(** part_000. *)
Lemma Part000_save_inactive env st :
  slot_active (Part000.activeTabInfo st) = false ->
  Part000.saveTimeForLastTab hostname env st = st.
Proof.
  unfold slot_active, Part000.saveTimeForLastTab. intros H.
  apply andb_false_iff in H as [-> | ->]; simpl; [done |].
  by rewrite orb_true_r.
Qed.

(** Whatever the storage does, an active slot is empty after the commit. *)
Lemma Part000_save_clears env st :
  slot_active (Part000.activeTabInfo st) = true ->
  Part000.activeTabInfo (Part000.saveTimeForLastTab hostname env st) = Part000.noTab.
Proof.
  unfold slot_active, Part000.saveTimeForLastTab. intros H.
  apply andb_true_iff in H as [H1 H2]. rewrite H1, H2. simpl.
  destruct (Part000.ati_startTime (Part000.activeTabInfo st)); [done | discriminate].
Qed.

Lemma Part000_save_never_active env st :
  slot_active (Part000.activeTabInfo (Part000.saveTimeForLastTab hostname env st))
    = false.
Proof.
  destruct (slot_active (Part000.activeTabInfo st)) eqn:Ha.
  - by rewrite Part000_save_clears.
  - by rewrite Part000_save_inactive.
Qed.

Lemma Part000_save_session env st :
  token (Part000.storage (Part000.saveTimeForLastTab hostname env st))
    = token (Part000.storage st) /\
  username (Part000.storage (Part000.saveTimeForLastTab hostname env st))
    = username (Part000.storage st).
Proof.
  unfold Part000.saveTimeForLastTab.
  branches.
Qed.


End CommitFacts.

(** ** The alarm listener (scheduler tick) *)

Lemma lookup_fold_delete (l : list string) (m : gmap string Entry) (k : string) :
  fold_left (fun m u => delete u m) l m !! k =
    if decide (k ∈ l) then None else m !! k.
Proof.
  revert m. induction l as [| u l IH]; intros m; simpl.
  - destruct (decide (k ∈ [])) as [H | H]; [by apply elem_of_nil in H | done].
  - rewrite IH. destruct (decide (k ∈ u :: l)) as [Hin | Hnin].
    + destruct (decide (k ∈ l)) as [? | Hl]; [done |].
      apply elem_of_cons in Hin as [-> | ?]; [| done].
      apply lookup_delete_eq.
    + rewrite not_elem_of_cons in Hnin. destruct Hnin as [Hne Hl].
      rewrite decide_False by done. by rewrite lookup_delete_ne.
Qed.

Lemma elem_of_synced env tok (wt : gmap string Entry) (k : string) :
  k ∈ map fst (filter (fun kv => Part000.sendTimeDataToBackend env tok kv = true)
                 (map_to_list wt))
  <-> exists e, wt !! k = Some e /\ fetch_ok env (request_of tok (k, e)) = true.
Proof.
  rewrite list_elem_of_In, in_map_iff. split.
  - intros [[k' e] [Hk Hin]]. simpl in Hk. subst k'.
    apply list_elem_of_In, list_elem_of_filter in Hin as [Hok Hin].
    apply elem_of_map_to_list in Hin. by exists e.
  - intros [e [Hl Hok]]. exists (k, e). split; [done |].
    apply list_elem_of_In, list_elem_of_filter. split; [done |].
    by apply elem_of_map_to_list.
Qed.

Section AlarmFacts.
Variable hostname : string -> option string.

(** part_000: with a session and a working store, the tick removes exactly
    the entries whose dispatch succeeded and leaves the others as they
    were after the forced commit. *)
Lemma Part000_alarm_partial_sync env st (k : string) :
  sync_get_ok env = true -> sync_set_ok env = true ->
  truthy_str (token (Part000.storage st)) = true ->
  websiteTime (Part000.storage (Part000.onAlarm hostname env "sendDataAlarm" st).1) !! k =
    match websiteTime (Part000.storage (Part000.saveTimeForLastTab hostname env st)) !! k with
    | Some e =>
        if fetch_ok env (request_of (token (Part000.storage st)) (k, e))
        then None else Some e
    | None => None
    end.
Proof.
  intros Hg Hs Htok. unfold Part000.onAlarm. simpl. rewrite Hg.
  destruct (Part000_save_session hostname env st) as [Ht _].
  set (st1 := Part000.saveTimeForLastTab hostname env st) in *.
  rewrite Ht, Htok. simpl.
  case_bool_decide as Hsz.
  - apply map_size_empty_iff in Hsz. simpl. rewrite Hsz. by rewrite lookup_empty.
  - set (succ := map fst _).
    pose proof (elem_of_synced env (token (Part000.storage st))
                  (websiteTime (Part000.storage st1)) k) as Hin.
    fold succ in Hin.
    case_bool_decide as Hne; rewrite ?Hs; simpl.
    + rewrite lookup_fold_delete. case_decide as Hk.
      * apply Hin in Hk as [e [-> ->]]. done.
      * destruct (websiteTime (Part000.storage st1) !! k) as [e |] eqn:He; [| done].
        destruct (fetch_ok env _) eqn:Hf; [| done].
        exfalso. apply Hk, Hin. by exists e.
    + destruct (websiteTime (Part000.storage st1) !! k) as [e |] eqn:He; [| done].
      destruct (fetch_ok env _) eqn:Hf; [| done].
      exfalso. assert (k ∈ succ) as Hk by (apply Hin; by exists e).
      rewrite Hne in Hk. by apply elem_of_nil in Hk.
Qed.

(** background.js: with a session and a working store, the tick empties
    the ledger whatever the dispatches answered. *)
Lemma Ext_alarm_clears_all env st :
  sync_get_ok env = true -> sync_set_ok env = true ->
  truthy_str (token (Ext.storage st)) = true ->
  websiteTime (Ext.storage (Ext.onAlarm hostname env "sendDataAlarm" st).1) = ∅.
Proof.
  intros Hg Hs Htok. unfold Ext.onAlarm. simpl. rewrite Hg, Hs.
  destruct (Ext_save_frame hostname env st) as (_ & _ & Ht & _).
  rewrite Ht, Htok. done.
Qed.

(** background.js: the tick leaves both slot variables as they were. *)
Lemma Ext_alarm_keeps_slot env name st :
  Ext.lastTabId (Ext.onAlarm hostname env name st).1 = Ext.lastTabId st /\
  Ext.startTime (Ext.onAlarm hostname env name st).1 = Ext.startTime st.
Proof.
  destruct (Ext_save_frame hostname env st) as (Hi & Hs & _).
  unfold Ext.onAlarm. branches.
Qed.

(** Without a token the tick is the forced commit and nothing else. *)
Lemma Ext_alarm_no_token env st :
  truthy_str (token (Ext.storage st)) = false ->
  Ext.onAlarm hostname env "sendDataAlarm" st =
    (Ext.saveTimeForLastTab hostname env st, []).
Proof.
  intros Htok. unfold Ext.onAlarm. simpl.
  destruct (Ext_save_frame hostname env st) as (_ & _ & Ht & _).
  rewrite Ht, Htok. simpl. by destruct (sync_get_ok env).
Qed.

Lemma Part000_alarm_no_token env st :
  truthy_str (token (Part000.storage st)) = false ->
  Part000.onAlarm hostname env "sendDataAlarm" st =
    (Part000.saveTimeForLastTab hostname env st, []).
Proof.
  intros Htok. unfold Part000.onAlarm. simpl.
  destruct (Part000_save_session hostname env st) as [Ht _].
  rewrite Ht, Htok. simpl. by destruct (sync_get_ok env).
Qed.

End AlarmFacts.

(** ** A commit never removes an entry and never lowers a total *)

Lemma num_le_refl (n : Num) : num_le n n.
Proof. destruct n; simpl; [lia | done]. Qed.

Lemma num_le_add (n : Num) (d : Z) : 0 <= d -> num_le n (num_add n d).
Proof. intros Hd. destruct n; simpl; [lia | done]. Qed.

Lemma num_le_trans (a b c : Num) : num_le a b -> num_le b c -> num_le a c.
Proof. destruct a, b, c; simpl; try done. lia. Qed.

Lemma ledger_le_refl (wt : gmap string Entry) : ledger_le wt wt.
Proof. intros k e He. exists e. split; [done | apply num_le_refl]. Qed.

Lemma merge_overwrite_le url t d (wt : gmap string Entry) :
  0 <= d -> ledger_le wt (merge_overwrite url t d wt).
Proof.
  intros Hd k e He. destruct (decide (url = k)) as [-> | Hne].
  - rewrite (merge_overwrite_own _ _ _ e) by done. eexists. split; [done |].
    simpl. by apply num_le_add.
  - rewrite merge_overwrite_other by done. exists e.
    split; [done | apply num_le_refl].
Qed.

Lemma merge_keep_title_le url t d (wt : gmap string Entry) :
  0 <= d -> ledger_le wt (merge_keep_title url t d wt).
Proof.
  intros Hd k e He. destruct (decide (url = k)) as [-> | Hne].
  - rewrite (merge_keep_title_present _ _ _ e) by done.
    eexists. split; [done |]. simpl. by apply num_le_add.
  - rewrite merge_keep_title_other by done. exists e.
    split; [done | apply num_le_refl].
Qed.

Section Monotone.
Variable hostname : string -> option string.

Lemma Ext_save_monotone env st :
  ledger_le (websiteTime (Ext.storage st))
            (websiteTime (Ext.storage (Ext.saveTimeForLastTab hostname env st))).
Proof.
  unfold Ext.saveTimeForLastTab.
  repeat (case_match; try apply ledger_le_refl).
  simpl. apply merge_overwrite_le.
  match goal with H : (_ <=? 0) = false |- _ => apply Z.leb_gt in H; lia end.
Qed.

Lemma Part000_save_monotone env st :
  ledger_le (websiteTime (Part000.storage st))
            (websiteTime (Part000.storage (Part000.saveTimeForLastTab hostname env st))).
Proof.
  unfold Part000.saveTimeForLastTab.
  repeat (case_match; simpl; try apply ledger_le_refl).
  apply merge_keep_title_le.
  match goal with H : (0 <? _) = true |- _ => apply Z.ltb_lt in H; lia end.
Qed.

End Monotone.

(** ** Scheduler tick: partial synchronisation *)

(** part_000 on the ledger {a.example: 10 s, b.example: 20 s} when the
    dispatch for a.example succeeds and the one for b.example fails: the
    ledger after the tick is exactly {b.example: 20 s}. *)
Example Part000_partial_sync_AB :
  websiteTime (Part000.storage
    (Part000.onAlarm demo_hostname (env_at 0 demo_tabs only_a) "sendDataAlarm"
       (Part000.init (logged_in ledgerAB))).1)
  = <["b.example" := {| title := Some "B"; totalTime := 20 |}]> ∅.
Proof. vm_compute. reflexivity. Qed.

(** C1, at the failing input, for src/extension/background.js: on the
    ledger {a.example: 10 s, b.example: 20 s}, with a session, the dispatch
    for a.example succeeding and the one for b.example failing, both
    requests are issued and the ledger after the tick is empty: the entry
    of the failed dispatch is gone, where partial-sync correctness asks for
    exactly {b.example: 20 s}. *)
Theorem C1_ext_tick_drops_failed_entry :
  fetch_ok (env_at 0 demo_tabs only_a)
    (request_of (Some "tok") ("b.example", {| title := Some "B"; totalTime := 20 |}))
    = false /\
  websiteTime (Ext.storage (Ext.init (logged_in ledgerAB))) !! "b.example"
    = Some {| title := Some "B"; totalTime := 20 |} /\
  length (Ext.onAlarm demo_hostname (env_at 0 demo_tabs only_a) "sendDataAlarm"
            (Ext.init (logged_in ledgerAB))).2 = 2%nat /\
  websiteTime (Ext.storage
    (Ext.onAlarm demo_hostname (env_at 0 demo_tabs only_a) "sendDataAlarm"
       (Ext.init (logged_in ledgerAB))).1) = ∅.
Proof. vm_compute. repeat split; reflexivity. Qed.

(** ** Scheduler tick without a session *)

(** C3, counterexample: no token is stored and the ledger is empty, tab 1
    (a.example) has been timed for ten seconds when the alarm fires.  In
    background.js and in part_000 alike the tick's forced commit creates
    the entry a.example, so the ledger is not left unmodified. *)
Lemma C3_tick_without_token_modifies_ledger :
  token (Ext.storage (ext_timing_a (logged_out ∅))) = None /\
  token (Part000.storage (part000_timing_a (logged_out ∅))) = None /\
  websiteTime (Ext.storage
    (Ext.onAlarm demo_hostname (env_at 11000 demo_tabs only_a) "sendDataAlarm"
       (ext_timing_a (logged_out ∅))).1)
    ≠ websiteTime (Ext.storage (ext_timing_a (logged_out ∅))) /\
  websiteTime (Part000.storage
    (Part000.onAlarm demo_hostname (env_at 11000 demo_tabs only_a) "sendDataAlarm"
       (part000_timing_a (logged_out ∅))).1)
    ≠ websiteTime (Part000.storage (part000_timing_a (logged_out ∅))).
Proof.
  split; [reflexivity |]. split; [reflexivity |].
  split; intros H; apply (f_equal (fun m => m !! "a.example")) in H;
    vm_compute in H; discriminate.
Qed.

(** C3, as amended: when no (non-empty) token is stored, a tick of
    background.js or of part_000 issues no request and does nothing but
    the forced commit of the open slot.  That commit removes no entry and
    lowers no total, and when no slot is open the whole state, ledger
    included, is left as it was. *)
Theorem C3_tick_without_token
    (hostname : string -> option string) (env : Env)
    (stE : Ext.State) (stP : Part000.State) :
  truthy_str (token (Ext.storage stE)) = false ->
  truthy_str (token (Part000.storage stP)) = false ->
  (Ext.onAlarm hostname env "sendDataAlarm" stE
     = (Ext.saveTimeForLastTab hostname env stE, []) /\
   ledger_le (websiteTime (Ext.storage stE))
     (websiteTime (Ext.storage (Ext.onAlarm hostname env "sendDataAlarm" stE).1)) /\
   (ext_slot_active stE = false ->
    (Ext.onAlarm hostname env "sendDataAlarm" stE).1 = stE)) /\
  (Part000.onAlarm hostname env "sendDataAlarm" stP
     = (Part000.saveTimeForLastTab hostname env stP, []) /\
   ledger_le (websiteTime (Part000.storage stP))
     (websiteTime (Part000.storage (Part000.onAlarm hostname env "sendDataAlarm" stP).1)) /\
   (slot_active (Part000.activeTabInfo stP) = false ->
    (Part000.onAlarm hostname env "sendDataAlarm" stP).1 = stP)).
Proof.
  intros HE HP. split.
  - rewrite Ext_alarm_no_token by done. simpl.
    split; [done |]. split; [apply Ext_save_monotone |].
    intros Hin. unfold ext_slot_active in Hin.
    unfold Ext.saveTimeForLastTab. by rewrite Hin.
  - rewrite Part000_alarm_no_token by done. simpl.
    split; [done |]. split; [apply Part000_save_monotone |].
    intros Hin. by rewrite Part000_save_inactive.
Qed.

Lemma C3_tick_without_token_witness :
  truthy_str (token (Ext.storage (Ext.init (logged_out ledgerAB)))) = false /\
  truthy_str (token (Part000.storage (Part000.init (logged_out ledgerAB)))) = false /\
  (Ext.onAlarm demo_hostname (env_at 11000 demo_tabs only_a) "sendDataAlarm"
     (Ext.init (logged_out ledgerAB))).2 = [] /\
  (Part000.onAlarm demo_hostname (env_at 11000 demo_tabs only_a) "sendDataAlarm"
     (Part000.init (logged_out ledgerAB))).2 = [].
Proof.
  split; [reflexivity |]. split; [reflexivity |].
  destruct (C3_tick_without_token demo_hostname (env_at 11000 demo_tabs only_a)
              (Ext.init (logged_out ledgerAB)) (Part000.init (logged_out ledgerAB))
              eq_refl eq_refl) as [[HE _] [HP _]].
  rewrite HE, HP. split; reflexivity.
Defined.

(** ** The slot after a forced commit *)

(** part_000 empties an active slot even when the storage refuses both
    the read and the write. *)
Example Part000_slot_cleared_on_storage_failure :
  Part000.activeTabInfo
    (Part000.saveTimeForLastTab demo_hostname
       {| now := 11000; now_start := 11000; tabs_get := no_tabs;
          tabs_query := fun _ => None;
          commit_get_ok := false; commit_set_ok := false;
          sync_get_ok := true; sync_set_ok := true; fetch_ok := only_a |}
       (part000_timing_a (logged_out ∅)))
  = Part000.noTab.
Proof. reflexivity. Qed.

(** C5, at the failing input, for src/extension/background.js: tab 1
    (a.example) has been timed since stamp 1000 and the alarm fires at
    11000.  The forced commit records 10 s, but both slot variables keep
    their values; when the user moves to tab 2 at 16000 the next commit
    measures from the old stamp again and the total becomes 25 s for 15 s
    of viewing.  The slot is not empty after the commit attempt. *)
Theorem C5_ext_tick_leaves_slot_set :
  Ext.lastTabId
    (Ext.onAlarm demo_hostname (env_at 11000 demo_tabs only_a) "sendDataAlarm"
       (ext_timing_a (logged_out ∅))).1 = Some 1 /\
  Ext.startTime
    (Ext.onAlarm demo_hostname (env_at 11000 demo_tabs only_a) "sendDataAlarm"
       (ext_timing_a (logged_out ∅))).1 = Some 1000 /\
  total_of "a.example" (websiteTime (Ext.storage
    (Ext.onAlarm demo_hostname (env_at 11000 demo_tabs only_a) "sendDataAlarm"
       (ext_timing_a (logged_out ∅))).1)) = 10 /\
  total_of "a.example" (websiteTime (Ext.storage
    (Ext.handleTabChange demo_hostname (env_at 16000 demo_tabs only_a) 2
       (Ext.onAlarm demo_hostname (env_at 11000 demo_tabs only_a) "sendDataAlarm"
          (ext_timing_a (logged_out ∅))).1))) = 25.
Proof. vm_compute. repeat split; reflexivity. Qed.

(** ** Double counting across a tick *)

(** part_000 on the same events: the tick commits 10 s and empties the
    slot, and nothing is counted twice. *)
Example Part000_trace_with_tick :
  total_of "a.example" (websiteTime (Part000.storage
    (Part000.run demo_hostname trace_with_tick (Part000.init (logged_out ∅))).1)) = 10.
Proof. vm_compute. reflexivity. Qed.

(** C2, at the failing input, for src/extension/background.js: the user
    opens tab 1 (a.example) at 1 s, the alarm fires at 11 s, the user moves
    to tab 2 at 16 s.  The whole run lasts 15 s, so a.example was the
    timed context for 15 s at most, yet the ledger ends with 25 s for it:
    the ten seconds before the tick are committed by the tick and again by
    the next transition. *)
Theorem C2_ext_double_counts_across_tick :
  total_of "a.example" (websiteTime (Ext.storage
    (Ext.run demo_hostname trace_with_tick (Ext.init (logged_out ∅))).1)) = 25 /\
  last_stamp 1000 trace_with_tick - 1000 = 15000.
Proof. split; vm_compute; reflexivity. Qed.

(** ** Accumulation and titles *)

(** The older revisions, on a site key that is not a property of
    [Object.prototype]: the entry is created with the elapsed amount, or
    the amount is added and the title replaced. *)
Lemma merge_overwrite_accumulates url t d (wt : gmap string Entry) :
  inherited_key url = false ->
  merge_overwrite url t d wt !! url =
    Some {| title := t;
            totalTime := match wt !! url with
                         | Some old => num_add (totalTime old) d
                         | None => Fin d
                         end |}.
Proof.
  intros Hord. destruct (wt !! url) as [old |] eqn:Hold.
  - by apply merge_overwrite_own.
  - rewrite merge_overwrite_fresh by done. by rewrite Z.add_0_l.
Qed.

Example Ext_two_titles :
  websiteTime (Ext.storage
    (Ext.run demo_hostname trace_two_titles_ext (Ext.init (logged_out ∅))).1)
    !! "a.example" = Some {| title := Some "Second"; totalTime := 12 |}.
Proof. vm_compute. reflexivity. Qed.

(** C9, at the failing input, for src/unnamed/part_000: five seconds on
    a.example while its title is "First", then seven seconds while its
    title is "Second".  The total is 12 s, but the stored title is still
    "First": an existing entry keeps the title it was created with. *)
Theorem C9_part000_keeps_first_title :
  websiteTime (Part000.storage
    (Part000.run demo_hostname trace_two_titles (Part000.init (logged_out ∅))).1)
    !! "a.example" = Some {| title := Some "First"; totalTime := 12 |}.
Proof. vm_compute. reflexivity. Qed.

(** ** Where the site key and the title of a commit come from *)




(** ** Browser-internal pages *)

(** C8, counterexample, for src/extension/background.js: tab 3 shows
    chrome://settings; its activation fills both slot variables. *)
Lemma C8_ext_activation_of_internal_page_sets_slot :
  (tabs_get (env_at 1000 demo_tabs only_a) 3 ≫= tab_url) = Some "chrome://settings" /\
  is_internal "chrome://settings" = true /\
  Ext.lastTabId
    (Ext.handle demo_hostname (env_at 1000 demo_tabs only_a) (Activated 3)
       (Ext.init (logged_out ∅))).1 = Some 3 /\
  Ext.startTime
    (Ext.handle demo_hostname (env_at 1000 demo_tabs only_a) (Activated 3)
       (Ext.init (logged_out ∅))).1 = Some 1000.
Proof. vm_compute. repeat split; reflexivity. Qed.

(** C8, as amended: when the activated context (a real tab, not the
    no-tab sentinel) shows a chrome:// URL, part_000 ends the activation
    with no active slot; background.js does record the context in its
    slot, but a commit made while the timed context shows a chrome:// URL
    leaves the state, ledger included, unchanged, so no duration is
    committed under the internal page. *)
Theorem C8_internal_pages
    (hostname : string -> option string) (env : Env) (tabId : Z) (tab : Tab)
    (u : string) (stP : Part000.State) (stE : Ext.State) :
  tabId ≠ TAB_ID_NONE ->
  tabs_get env tabId = Some tab -> tab_url tab = Some u -> is_internal u = true ->
  slot_active (Part000.activeTabInfo
                 (Part000.handle hostname env (Activated tabId) stP).1) = false /\
  (Ext.lastTabId stE = Some tabId ->
   Ext.saveTimeForLastTab hostname env stE = stE).
Proof.
  intros Hreal Hget Hu Hint. split.
  - simpl. unfold Part000.processTabChange.
    rewrite bool_decide_eq_false_2 by done.
    rewrite Hget. unfold trackable_url. rewrite Hu, Hint, andb_false_r.
    apply Part000_save_never_active.
  - intros Hid. by apply (Ext_save_internal hostname env stE tabId tab u).
Qed.

Lemma C8_internal_pages_witness :
  (3 ≠ TAB_ID_NONE /\
   tabs_get (env_at 1000 demo_tabs only_a) 3
     = Some (tab_of 3 "chrome://settings" "Settings") /\
   is_internal "chrome://settings" = true) /\
  slot_active (Part000.activeTabInfo
    (Part000.handle demo_hostname (env_at 1000 demo_tabs only_a) (Activated 3)
       (part000_timing_a (logged_out ∅))).1) = false.
Proof.
  split; [split; [by vm_compute | split; reflexivity] |].
  apply (C8_internal_pages demo_hostname (env_at 1000 demo_tabs only_a) 3
           (tab_of 3 "chrome://settings" "Settings") "chrome://settings"
           (part000_timing_a (logged_out ∅)) (Ext.init (logged_out ∅))).
  - by vm_compute.
  - reflexivity.
  - reflexivity.
  - reflexivity.
Defined.

(** ** Removal of a context *)

(** The second script of part_001 attempts a commit for every removed
    tab.  Were the browser to still resolve a removed tab, the time of the
    timed tab would be written under the removed tab's site. *)
Example Part001b_removed_other_tab_if_resolved :
  total_of "b.example" (websiteTime (Part001b.storage
    (Part001b.onRemoved demo_hostname (env_at 11000 demo_tabs only_a) 2
       {| Part001b.lastTabId := Some 1; Part001b.startTime := Some 1000;
          Part001b.storage := logged_out ∅ |}))) = 10.
Proof. vm_compute. reflexivity. Qed.

(** The removal listeners that compare identifiers first (background.js,
    part_000, first script of part_001): the removal of the timed context
    runs the commit and empties the slot, the removal of any other context
    leaves the whole state, slot and ledger, unchanged.  For the second
    script of part_001 only the first half holds. *)
Lemma removal_listeners_guard
    (hostname : string -> option string) (env : Env) (tabId : Z)
    (stE : Ext.State) (stP : Part000.State)
    (stA : Part001a.State) (stB : Part001b.State) :
  (Some tabId = Ext.lastTabId stE ->
     Ext.handleTabRemoved hostname env tabId stE
       = {| Ext.lastTabId := None; Ext.startTime := None;
            Ext.storage := Ext.storage (Ext.saveTimeForLastTab hostname env stE) |}) /\
  (Some tabId ≠ Ext.lastTabId stE ->
     Ext.handleTabRemoved hostname env tabId stE = stE) /\
  (Some tabId = Part000.ati_id (Part000.activeTabInfo stP) ->
     Part000.onRemoved hostname env tabId stP
       = Part000.saveTimeForLastTab hostname env stP /\
     (slot_active (Part000.activeTabInfo stP) = true ->
      Part000.activeTabInfo (Part000.onRemoved hostname env tabId stP)
        = Part000.noTab)) /\
  (Some tabId ≠ Part000.ati_id (Part000.activeTabInfo stP) ->
     Part000.onRemoved hostname env tabId stP = stP) /\
  (Some tabId ≠ Part001a.lastTabId stA ->
     Part001a.onRemoved hostname env tabId stA = stA) /\
  (Some tabId = Part001b.lastTabId stB ->
     Part001b.onRemoved hostname env tabId stB
       = {| Part001b.lastTabId := None; Part001b.startTime := None;
            Part001b.storage :=
              Part001b.storage
                (Part001b.saveTimeForLastTab hostname env (Some tabId) stB) |}).
Proof.
  repeat split.
  - intros Heq. unfold Ext.handleTabRemoved. by rewrite bool_decide_eq_true_2.
  - intros Hne. unfold Ext.handleTabRemoved. by rewrite bool_decide_eq_false_2.
  - unfold Part000.onRemoved. by rewrite bool_decide_eq_true_2.
  - intros Hact. unfold Part000.onRemoved. rewrite bool_decide_eq_true_2 by done.
    by apply Part000_save_clears.
  - intros Hne. unfold Part000.onRemoved. by rewrite bool_decide_eq_false_2.
  - intros Hne. unfold Part001a.onRemoved. by rewrite bool_decide_eq_false_2.
  - intros Heq. unfold Part001b.onRemoved.
    destruct (Part001b_save_frame hostname env (Some tabId) stB) as [Hl _].
    rewrite Hl. by rewrite bool_decide_eq_true_2.
Qed.


(** When the removed context no longer resolves, the commit attempted by
    the second script of part_001 is discarded, and the removal of a
    context other than the timed one leaves the state as it was. *)
Lemma Part001b_removed_other_tab_unresolved
    (hostname : string -> option string) (env : Env) (tabId : Z)
    (stB : Part001b.State) :
  Some tabId ≠ Part001b.lastTabId stB -> tabs_get env tabId = None ->
  Part001b.onRemoved hostname env tabId stB = stB.
Proof.
  intros Hne Hget. unfold Part001b.onRemoved.
  rewrite Part001b_save_unresolved by done.
  by rewrite bool_decide_eq_false_2.
Qed.

(** ** Well-formedness of the slot along any run *)

Section SlotInvariant.
Variable hostname : string -> option string.

Lemma Ext_handle_wf env ev st :
  ext_slot_wf st -> ext_slot_wf (Ext.handle hostname env ev st).1.
Proof.
  intros Hwf. destruct ev as [tabId | tabId ci tab | tabId | w | name]; simpl.
  - right. unfold Ext.handleTabChange. simpl. eauto.
  - unfold Ext.onUpdated. case_match; [| done].
    right. unfold Ext.handleTabChange. simpl. eauto.
  - unfold Ext.handleTabRemoved. case_bool_decide; [| done]. by left.
  - done.
  - destruct (Ext_alarm_keeps_slot hostname env name st) as [Hi Hs].
    unfold ext_slot_wf. by rewrite Hi, Hs.
Qed.

Lemma Ext_run_wf trace st :
  ext_slot_wf st -> ext_slot_wf (Ext.run hostname trace st).1.
Proof.
  revert st. induction trace as [| [env ev] rest IH]; intros st Hwf; [done |].
  simpl. pose proof (Ext_handle_wf env ev st Hwf) as Hstep.
  destruct (Ext.handle hostname env ev st) as [st1 r1]. simpl in Hstep.
  specialize (IH st1 Hstep).
  destruct (Ext.run hostname rest st1) as [st2 r2]. done.
Qed.

Lemma Part000_save_wf env st :
  part000_slot_wf st -> part000_slot_wf (Part000.saveTimeForLastTab hostname env st).
Proof.
  intros Hwf. destruct (slot_active (Part000.activeTabInfo st)) eqn:Ha.
  - left. by apply Part000_save_clears.
  - by rewrite Part000_save_inactive.
Qed.

Lemma Part000_processTabChange_wf env tabId st :
  part000_slot_wf st -> part000_slot_wf (Part000.processTabChange hostname env tabId st).
Proof.
  intros Hwf. unfold Part000.processTabChange.
  case_bool_decide; [done |].
  pose proof (Part000_save_wf env st Hwf) as H1.
  destruct (tabs_get env tabId) as [tab |]; [| done].
  destruct (trackable_url (tab_url tab)) eqn:Htr; [| done].
  right. simpl. destruct (tab_url tab) as [u |] eqn:Hu; [| done].
  by exists tabId, (now_start env), u.
Qed.

Lemma Part000_alarm_slot env name st :
  Part000.activeTabInfo (Part000.onAlarm hostname env name st).1 =
    if String.eqb name "sendDataAlarm"
    then Part000.activeTabInfo (Part000.saveTimeForLastTab hostname env st)
    else Part000.activeTabInfo st.
Proof.
  unfold Part000.onAlarm. branches.
Qed.

Lemma Part000_handle_wf env ev st :
  part000_slot_wf st -> part000_slot_wf (Part000.handle hostname env ev st).1.
Proof.
  intros Hwf. destruct ev as [tabId | tabId ci tab | tabId | w | name]; simpl.
  - by apply Part000_processTabChange_wf.
  - unfold Part000.onUpdated. case_match; [| done].
    by apply Part000_processTabChange_wf.
  - unfold Part000.onRemoved. case_bool_decide; [| done]. by apply Part000_save_wf.
  - unfold Part000.onFocusChanged. case_bool_decide; [by apply Part000_save_wf |].
    case_match; [| done]. by apply Part000_processTabChange_wf.
  - pose proof (Part000_alarm_slot env name st) as Hslot.
    pose proof (Part000_save_wf env st Hwf) as Hsave.
    unfold part000_slot_wf in *. rewrite Hslot. by case_match.
Qed.

Lemma Part000_run_wf trace st :
  part000_slot_wf st -> part000_slot_wf (Part000.run hostname trace st).1.
Proof.
  revert st. induction trace as [| [env ev] rest IH]; intros st Hwf; [done |].
  simpl. pose proof (Part000_handle_wf env ev st Hwf) as Hstep.
  destruct (Part000.handle hostname env ev st) as [st1 r1]. simpl in Hstep.
  specialize (IH st1 Hstep).
  destruct (Part000.run hostname rest st1) as [st2 r2]. done.
Qed.

End SlotInvariant.

(** C7: after any prefix of any event sequence processed from the empty
    initial state, the slot of background.js and the slot of part_000 (one
    pair of variables, respectively one record, so at most one context)
    are well formed: identifier and start stamp are both unset or both
    set. *)
Theorem C7_slot_well_formed
    (hostname : string -> option string) (trace : list (Env * Event)) (n : nat)
    (s : Storage) :
  ext_slot_wf (Ext.run hostname (take n trace) (Ext.init s)).1 /\
  part000_slot_wf (Part000.run hostname (take n trace) (Part000.init s)).1.
Proof.
  split.
  - apply Ext_run_wf. by left.
  - apply Part000_run_wf. by left.
Qed.

(** ** Login *)

(** C10, counterexample: the backend answers the login with a status that
    is not ok and a JSON body without an [error] property.  The result of
    [loginUser] is the object whose [error] field is undefined: it carries
    no error message.  The session is left as it was. *)
Lemma C10_error_response_without_message :
  Ext.loginUser (Response false (Some (BodyObj None None))) true "u"
    (logged_out ledgerAB) = (logged_out ledgerAB, LoginError None) /\
  Part000.loginUser (Response false (Some (BodyObj None None))) true "u"
    (logged_out ledgerAB) = (logged_out ledgerAB, LoginError None).
Proof. split; reflexivity. Qed.

(** C10, as amended: [loginUser] of background.js and of part_000 returns
    a result for every outcome of the exchange.  A transport failure and
    an unparsable body give the error result with the script's fixed
    message.  A response that is not ok gives the error result whose
    [error] field is the [error] property of the backend's body, forwarded
    as it is: absent when the backend sent none.  In all these cases the
    stored session is left as it was; the store changes only on an ok
    response with a parsed body. *)
Theorem C10_login_error_normalization
    (resp : FetchResult) (set_ok : bool) (user : string) (s : Storage) :
  ((resp = NetworkError \/ (exists ok, resp = Response ok None)) ->
     Ext.loginUser resp set_ok user s
       = (s, LoginError (Some "Could not connect to the server")) /\
     Part000.loginUser resp set_ok user s
       = (s, LoginError (Some "Could not connect to the server."))) /\
  (forall t m, resp = Response false (Some (BodyObj t m)) ->
     Ext.loginUser resp set_ok user s = (s, LoginError m) /\
     Part000.loginUser resp set_ok user s = (s, LoginError m)) /\
  ((forall body, resp ≠ Response true (Some body)) ->
     (Ext.loginUser resp set_ok user s).1 = s /\
     (Part000.loginUser resp set_ok user s).1 = s /\
     (exists e, (Ext.loginUser resp set_ok user s).2 = LoginError e) /\
     (exists e, (Part000.loginUser resp set_ok user s).2 = LoginError e)) /\
  ((Ext.loginUser resp set_ok user s).1 ≠ s \/
   (Part000.loginUser resp set_ok user s).1 ≠ s ->
     exists t e, resp = Response true (Some (BodyObj t e)) /\ set_ok = true).
Proof.
  split; [| split; [| split]].
  - intros [-> | [ok ->]]; [done |]. by destruct ok.
  - intros t m ->. done.
  - intros Hno.
    destruct resp as [| ok [[| t e] |]].
    + simpl. repeat split; eauto.
    + destruct ok; simpl; repeat split; eauto.
    + destruct ok; [by destruct (Hno (BodyObj t e)) | simpl; repeat split; eauto].
    + destruct ok; simpl; repeat split; eauto.
  - intros Hch.
    destruct resp as [| ok [[| t e] |]]; simpl in Hch; try destruct ok;
      simpl in Hch; try (by destruct Hch).
    destruct set_ok; [by eauto | by destruct Hch].
Qed.

Lemma C10_login_error_normalization_witness :
  (NetworkError = NetworkError \/ (exists ok, NetworkError = Response ok None)) /\
  Ext.loginUser NetworkError true "u" (logged_out ledgerAB)
    = (logged_out ledgerAB, LoginError (Some "Could not connect to the server")) /\
  Ext.loginUser (Response false (Some (BodyObj None (Some "Invalid credentials"))))
      true "u" (logged_out ledgerAB)
    = (logged_out ledgerAB, LoginError (Some "Invalid credentials")).
Proof.
  split; [by left |]. split.
  - destruct (C10_login_error_normalization NetworkError true "u"
                (logged_out ledgerAB)) as (Hfail & _).
    destruct (Hfail (or_introl eq_refl)) as [HE _]. exact HE.
  - destruct (C10_login_error_normalization
                (Response false (Some (BodyObj None (Some "Invalid credentials"))))
                true "u" (logged_out ledgerAB)) as (_ & Herr & _).
    destruct (Herr None (Some "Invalid credentials") eq_refl) as [HE _]. exact HE.
Defined.

(** A successful login stores the token and the user name. *)
Example login_success_writes_session :
  Part000.loginUser (Response true (Some (BodyObj (Some "tok") None))) true "u"
    (logged_out ledgerAB) = (logged_in ledgerAB, LoginSuccess).
Proof. reflexivity. Qed.

(** ** part_000 never counts a second twice *)

Section NoOvercount.
Variable hostname : string -> option string.
Variable k : string.

Lemma Part000_save_cases env st :
  (slot_active (Part000.activeTabInfo st) = false /\
   Part000.saveTimeForLastTab hostname env st = st) \/
  (slot_active (Part000.activeTabInfo st) = true /\
   exists t0,
     Part000.ati_startTime (Part000.activeTabInfo st) = Some t0 /\
     Part000.activeTabInfo (Part000.saveTimeForLastTab hostname env st)
       = Part000.noTab /\
     (websiteTime (Part000.storage (Part000.saveTimeForLastTab hostname env st))
        = websiteTime (Part000.storage st) \/
      exists h,
        part000_timed_site hostname st = Some h /\
        0 < duration_of (now env) t0 /\
        websiteTime (Part000.storage (Part000.saveTimeForLastTab hostname env st))
          = merge_keep_title h (Part000.ati_title (Part000.activeTabInfo st))
              (duration_of (now env) t0) (websiteTime (Part000.storage st)))).
Proof.
  destruct (slot_active (Part000.activeTabInfo st)) eqn:Ha.
  - right. split; [done |].
    pose proof Ha as Ha'. unfold slot_active in Ha'.
    apply andb_true_iff in Ha' as [H1 H2].
    destruct (Part000.ati_startTime (Part000.activeTabInfo st)) as [t0 |] eqn:Ht;
      [| discriminate].
    exists t0. split; [done |].
    split; [by apply Part000_save_clears |].
    unfold Part000.saveTimeForLastTab. rewrite H1, Ht. simpl in *. rewrite H2. simpl.
    destruct (0 <? duration_of (now env) t0) eqn:Hd; [| by left].
    destruct (Part000.ati_url (Part000.activeTabInfo st) ≫= hostname) as [h |] eqn:Hh;
      [| by left].
    destruct (commit_get_ok env); [| by left].
    destruct (commit_set_ok env); [| by left].
    right. exists h. unfold part000_timed_site. rewrite Ha.
    split; [done |]. split; [by apply Z.ltb_lt | done].
  - left. split; [done |]. by apply Part000_save_inactive.
Qed.

Lemma accrued_noTab x st :
  Part000.activeTabInfo st = Part000.noTab -> part000_accrued hostname k x st = 0.
Proof.
  intros H. unfold part000_accrued, part000_timed_site. rewrite H. done.
Qed.

Lemma accrued_nonneg hi x st :
  part000_inv k hi st -> hi <= x -> 0 <= part000_accrued hostname k x st.
Proof.
  intros [Hs _] Hx. unfold part000_accrued.
  case_bool_decide as Hsite; [| lia].
  unfold part000_timed_site in Hsite.
  destruct (slot_active (Part000.activeTabInfo st)) eqn:Ha; [| done].
  destruct (Part000.ati_startTime (Part000.activeTabInfo st)) as [t |] eqn:Ht; [| lia].
  specialize (Hs t eq_refl eq_refl). lia.
Qed.

Lemma good_refl env hi st :
  part000_inv k hi st -> hi <= now_start env -> good_step hostname k env st st.
Proof.
  intros Hinv Hhi. split; [| lia]. destruct Hinv as [Hs Ht]. split; [| done].
  intros t Ha Hst. specialize (Hs t Ha Hst). lia.
Qed.

Lemma save_good env hi st :
  part000_inv k hi st -> hi <= now env -> now env <= now_start env ->
  good_step hostname k env st (Part000.saveTimeForLastTab hostname env st).
Proof.
  intros Hinv Hhi Hns.
  pose proof (accrued_nonneg hi (now_start env) st Hinv ltac:(lia)) as Hacc.
  destruct (Part000_save_cases env st) as [[Ha ->] | [Ha (t0 & Ht & Hclr & Hwt)]].
  - apply (good_refl env hi); [done | lia].
  - destruct Hinv as [Hstart Htot].
    pose proof (Hstart t0 Ha Ht) as Ht0.
    set (st1 := Part000.saveTimeForLastTab hostname env st) in *.
    unfold good_step, part000_inv. rewrite (accrued_noTab _ st1 Hclr).
    destruct Hwt as [Hsame | (h & Hsite & Hd & Hmerge)].
    + rewrite Hsame. split; [| lia]. split; [| done].
      intros t Hact. rewrite Hclr in Hact. discriminate.
    + rewrite Hmerge.
      pose proof (merge_keep_title_total_bounds h k
                    (Part000.ati_title (Part000.activeTabInfo st))
                    (duration_of (now env) t0) (websiteTime (Part000.storage st))
                    ltac:(lia) Htot) as Hb.
      split.
      * split.
        -- intros t Hact. rewrite Hclr in Hact. discriminate.
        -- lia.
      * destruct (decide (h = k)) as [Hk | Hk]; [| lia]. subst h.
        unfold part000_accrued in *. rewrite Hsite in *.
        rewrite bool_decide_eq_true_2 in * by done. rewrite Ht in *.
        pose proof (duration_of_bounds (now env) t0). lia.
Qed.

Lemma processTabChange_good env hi tabId st :
  part000_inv k hi st -> hi <= now env -> now env <= now_start env ->
  good_step hostname k env st (Part000.processTabChange hostname env tabId st).
Proof.
  intros Hinv Hhi Hns.
  unfold Part000.processTabChange. case_bool_decide as Hnone.
  - apply (good_refl env hi); [done | lia].
  - destruct (save_good env hi st Hinv Hhi Hns) as [Hinv1 Hle].
    pose proof (Part000_save_never_active hostname env st) as Hoff.
    set (st1 := Part000.saveTimeForLastTab hostname env st) in *.
    destruct (tabs_get env tabId) as [tab |]; [| done].
    destruct (trackable_url (tab_url tab)); [| done].
    assert (part000_accrued hostname k (now_start env) st1 = 0) as Hz.
    { unfold part000_accrued, part000_timed_site. by rewrite Hoff. }
    split.
    + split; simpl; [| apply Hinv1]. intros t _ [= <-]. lia.
    + simpl. rewrite Hz in Hle.
      assert (part000_accrued hostname k (now_start env)
                {| Part000.activeTabInfo :=
                     {| Part000.ati_id := Some tabId;
                        Part000.ati_url := tab_url tab;
                        Part000.ati_title := tab_title tab;
                        Part000.ati_startTime := Some (now_start env) |};
                   Part000.storage := Part000.storage st1 |} = 0) as Hnew.
      { unfold part000_accrued. case_bool_decide; simpl; lia. }
      lia.
Qed.

Lemma total_of_fold_delete (l : list string) (wt : gmap string Entry) :
  0 <= total_of k wt ->
  0 <= total_of k (fold_left (fun m u => delete u m) l wt) <= total_of k wt.
Proof.
  intros Hnn. unfold total_of at 1 2. rewrite lookup_fold_delete.
  case_decide; [lia |]. fold (total_of k wt). lia.
Qed.

Lemma onAlarm_good env hi name st :
  part000_inv k hi st -> hi <= now env -> now env <= now_start env ->
  good_step hostname k env st (Part000.onAlarm hostname env name st).1.
Proof.
  intros Hinv Hhi Hns.
  pose proof (save_good env hi st Hinv Hhi Hns) as Hgood.
  unfold Part000.onAlarm. destruct (String.eqb name "sendDataAlarm").
  - set (st1 := Part000.saveTimeForLastTab hostname env st) in *.
    destruct (sync_get_ok env); [| done].
    destruct (negb _ || _); [done |].
    case_bool_decide as Hsucc; [| done].
    destruct (sync_set_ok env); [| done].
    simpl. destruct Hgood as [[Hs1 Ht1] Hle].
    set (succ := map fst _).
    pose proof (total_of_fold_delete succ _ Ht1) as Hdel.
    split.
    + split; [apply Hs1 | apply Hdel].
    + unfold part000_accrued, part000_timed_site in *. simpl. lia.
  - apply (good_refl env hi); [done | lia].
Qed.

Lemma handle_good env hi ev st :
  part000_inv k hi st -> hi <= now env -> now env <= now_start env ->
  good_step hostname k env st (Part000.handle hostname env ev st).1.
Proof.
  intros Hinv Hhi Hns.
  assert (good_step hostname k env st st) as Hid
    by (apply (good_refl env hi); [done | lia]).
  destruct ev as [tabId | tabId ci tab | tabId | w | name]; simpl.
  - by apply (processTabChange_good env hi).
  - unfold Part000.onUpdated. case_match; [| done].
    by apply (processTabChange_good env hi).
  - unfold Part000.onRemoved. case_bool_decide; [| done].
    by apply (save_good env hi).
  - unfold Part000.onFocusChanged. case_bool_decide; [by apply (save_good env hi) |].
    case_match; [| done]. by apply (processTabChange_good env hi).
  - by apply (onAlarm_good env hi).
Qed.

Lemma accrued_gap x hi st :
  part000_accrued hostname k x st =
    part000_accrued hostname k hi st
    + (if bool_decide (part000_timed_site hostname st = Some k)
       then x - hi else 0).
Proof.
  unfold part000_accrued. case_bool_decide as Hsite; [| lia].
  unfold part000_timed_site in Hsite.
  destruct (slot_active (Part000.activeTabInfo st)) eqn:Ha; [| done].
  unfold slot_active in Ha. apply andb_true_iff in Ha as [_ Ha].
  destruct (Part000.ati_startTime (Part000.activeTabInfo st)); [lia | done].
Qed.

Lemma Part000_no_overcount_from trace : forall st hi,
  clock_ok hi trace -> part000_inv k hi st ->
  part000_inv k (last_stamp hi trace) (Part000.run hostname trace st).1 /\
  1000 * total_of k (websiteTime (Part000.storage (Part000.run hostname trace st).1))
    + part000_accrued hostname k (last_stamp hi trace)
        (Part000.run hostname trace st).1
  <= 1000 * total_of k (websiteTime (Part000.storage st))
     + part000_accrued hostname k hi st
     + part000_timed_ms hostname k hi trace st
     + 500 * Z.of_nat (length trace).
Proof.
  induction trace as [| [env ev] rest IH]; intros st hi Hclock Hinv.
  - simpl. split; [done | lia].
  - destruct Hclock as (Hhi & Hns & Hrest).
    destruct (handle_good env hi ev st Hinv Hhi Hns) as [Hinv1 Hle].
    specialize (IH (Part000.handle hostname env ev st).1 (now_start env) Hrest Hinv1).
    cbn [Part000.run part000_timed_ms last_stamp length].
    destruct (Part000.handle hostname env ev st) as [st1 r1]. simpl in *.
    destruct (Part000.run hostname rest st1) as [st2 r2]. simpl in *.
    destruct IH as [Hinv2 IH]. split; [done |].
    rewrite (accrued_gap (now_start env) hi st) in Hle. lia.
Qed.

End NoOvercount.

(** part_000, no over-counting: along any run from the empty slot whose
    clock never goes backwards, the seconds added to the total of a site
    never exceed the time during which a context of that site was the
    timed one, up to half a second of rounding per handler invocation. *)
Theorem Part000_no_overcount
    (hostname : string -> option string) (k : string)
    (trace : list (Env * Event)) (t0 : Z) (s : Storage) :
  clock_ok t0 trace -> 0 <= total_of k (websiteTime s) ->
  1000 * total_of k (websiteTime (Part000.storage
           (Part000.run hostname trace (Part000.init s)).1))
  <= 1000 * total_of k (websiteTime s)
     + part000_timed_ms hostname k t0 trace (Part000.init s)
     + 500 * Z.of_nat (length trace).
Proof.
  intros Hclock Htot.
  assert (part000_inv k t0 (Part000.init s)) as Hinv.
  { split; [intros t Ha; discriminate | done]. }
  destruct (Part000_no_overcount_from hostname k trace (Part000.init s) t0 Hclock Hinv)
    as [Hinv' Hle].
  pose proof (accrued_nonneg hostname k _ _ _ Hinv' (Z.le_refl _)) as Hacc.
  rewrite (accrued_noTab hostname k t0 (Part000.init s)) in Hle by done.
  change (Part000.storage (Part000.init s)) with s in Hle.
  lia.
Qed.

(** The time attributed to two different sites is taken from disjoint
    gaps: together they fit in the span of the trace. *)
Lemma part000_timed_ms_disjoint
    (hostname : string -> option string) (k1 k2 : string)
    (trace : list (Env * Event)) : forall (hi : Z) (st : Part000.State),
  k1 ≠ k2 -> clock_ok hi trace ->
  0 <= part000_timed_ms hostname k1 hi trace st /\
  0 <= part000_timed_ms hostname k2 hi trace st /\
  part000_timed_ms hostname k1 hi trace st + part000_timed_ms hostname k2 hi trace st
    <= last_stamp hi trace - hi.
Proof.
  induction trace as [| [env ev] rest IH]; intros hi st Hne Hclock.
  - simpl. lia.
  - destruct Hclock as (Hhi & Hns & Hrest).
    specialize (IH (now_start env) (Part000.handle hostname env ev st).1 Hne Hrest).
    cbn [part000_timed_ms last_stamp].
    assert (hi <= last_stamp (now_start env) rest) as Hspan by lia.
    repeat case_bool_decide; try lia. congruence.
Qed.

(** On the events of [trace_with_tick], part_000 times a.example for the
    ten seconds up to the tick and records exactly those. *)
Example Part000_trace_with_tick_timed :
  clock_ok 1000 trace_with_tick /\
  part000_timed_ms demo_hostname "a.example" 1000 trace_with_tick
    (Part000.init (logged_out ∅)) = 10000.
Proof. split; [vm_compute; intuition discriminate | vm_compute; reflexivity]. Qed.

(** The bound of [Part000_no_overcount] on those events: 10 s recorded,
    10 s timed. *)
Example Part000_no_overcount_on_trace_with_tick :
  1000 * total_of "a.example" (websiteTime (Part000.storage
           (Part000.run demo_hostname trace_with_tick
              (Part000.init (logged_out ∅))).1))
  <= 1000 * total_of "a.example" (websiteTime (logged_out ∅))
     + part000_timed_ms demo_hostname "a.example" 1000 trace_with_tick
         (Part000.init (logged_out ∅))
     + 500 * Z.of_nat (length trace_with_tick).
Proof.
  apply Part000_no_overcount.
  - vm_compute. intuition discriminate.
  - vm_compute. discriminate.
Qed.

(** The host-name reader of the examples. *)
Example demo_hostname_page :
  demo_hostname "https://a.example/page" = Some "a.example".
Proof. reflexivity. Qed.

Example demo_hostname_not_a_url : demo_hostname "not a url" = None.
Proof. reflexivity. Qed.

(** * Further properties of the scripts *)

(** ** The requests of a tick *)

Section TickRequests.
Variable hostname : string -> option string.

(** X1: in part_000, with a stored token and a working store, a tick
    removes from the ledger exactly the entries whose dispatch succeeded:
    after the tick a site key maps to what it mapped to after the forced
    commit when its dispatch failed, and to nothing when it succeeded. *)
Theorem X1_part000_tick_partial_sync env st (k : string) :
  sync_get_ok env = true -> sync_set_ok env = true ->
  truthy_str (token (Part000.storage st)) = true ->
  websiteTime (Part000.storage (Part000.onAlarm hostname env "sendDataAlarm" st).1) !! k =
    match websiteTime (Part000.storage (Part000.saveTimeForLastTab hostname env st)) !! k with
    | Some e =>
        if fetch_ok env (request_of (token (Part000.storage st)) (k, e))
        then None else Some e
    | None => None
    end.
Proof. apply Part000_alarm_partial_sync. Qed.



(** X4: in the second script of part_001, with a stored token and a
    working store, a tick leaves the ledger empty whatever the dispatches
    answered, and leaves both slot variables as they were, so the next
    commit measures from the old start stamp again. *)
Theorem X4_part001b_tick_clears_ledger_keeps_slot env (stB : Part001b.State) :
  sync_get_ok env = true -> sync_set_ok env = true ->
  truthy_str (token (Part001b.storage stB)) = true ->
  websiteTime (Part001b.storage
    (Part001b.onAlarm hostname env "sendDataAlarm" stB).1) = ∅ /\
  Part001b.lastTabId (Part001b.onAlarm hostname env "sendDataAlarm" stB).1
    = Part001b.lastTabId stB /\
  Part001b.startTime (Part001b.onAlarm hostname env "sendDataAlarm" stB).1
    = Part001b.startTime stB.
Proof.
  intros Hg Hs HB.
  unfold Part001b.onAlarm. simpl. rewrite Hg, Hs.
  destruct (Part001b_save_frame hostname env (Part001b.lastTabId stB) stB) as [Hi Hst].
  assert (token (Part001b.storage
            (Part001b.saveTimeForLastTab hostname env (Part001b.lastTabId stB) stB))
          = token (Part001b.storage stB)) as Ht.
  { unfold Part001b.saveTimeForLastTab. branches. }
  rewrite Ht, HB. simpl. done.
Qed.

End TickRequests.

Lemma X1_part000_tick_partial_sync_witness :
  (sync_get_ok (env_at 0 demo_tabs only_a) = true /\
   sync_set_ok (env_at 0 demo_tabs only_a) = true /\
   truthy_str (token (Part000.storage (Part000.init (logged_in ledgerAB)))) = true) /\
  websiteTime (Part000.storage
    (Part000.onAlarm demo_hostname (env_at 0 demo_tabs only_a) "sendDataAlarm"
       (Part000.init (logged_in ledgerAB))).1) !! "a.example" = None /\
  websiteTime (Part000.storage
    (Part000.onAlarm demo_hostname (env_at 0 demo_tabs only_a) "sendDataAlarm"
       (Part000.init (logged_in ledgerAB))).1) !! "b.example"
    = Some {| title := Some "B"; totalTime := 20 |}.
Proof.
  split; [repeat split; reflexivity |].
  split.
  - rewrite (X1_part000_tick_partial_sync demo_hostname (env_at 0 demo_tabs only_a)
               (Part000.init (logged_in ledgerAB)) "a.example" eq_refl eq_refl eq_refl).
    vm_compute. reflexivity.
  - rewrite (X1_part000_tick_partial_sync demo_hostname (env_at 0 demo_tabs only_a)
               (Part000.init (logged_in ledgerAB)) "b.example" eq_refl eq_refl eq_refl).
    vm_compute. reflexivity.
Defined.



Lemma X4_part001b_tick_clears_ledger_keeps_slot_witness :
  (sync_get_ok (env_at 0 demo_tabs only_a) = true /\
   sync_set_ok (env_at 0 demo_tabs only_a) = true /\
   truthy_str (token (Part001b.storage (part001b_idle (logged_in ledgerAB)))) = true) /\
  websiteTime (Part001b.storage
    (Part001b.onAlarm demo_hostname (env_at 0 demo_tabs only_a) "sendDataAlarm"
       (part001b_idle (logged_in ledgerAB))).1) = ∅.
Proof.
  split; [repeat split; reflexivity |].
  apply (X4_part001b_tick_clears_ledger_keeps_slot demo_hostname
           (env_at 0 demo_tabs only_a) (part001b_idle (logged_in ledgerAB))
           eq_refl eq_refl eq_refl).
Defined.

(** ** The commit: what it leaves alone *)

Section CommitFrame.
Variable hostname : string -> option string.

Lemma Part001a_save_cases env tabId st :
  Part001a.saveTimeForLastTab hostname env tabId st = st \/
  exists tid t0 tab u h,
    tabId = Some tid /\ Part001a.startTime st = Some t0 /\
    0 < duration_of (now env) t0 /\
    tabs_get env tid = Some tab /\ tab_url tab = Some u /\ hostname u = Some h /\
    commit_get_ok env = true /\ commit_set_ok env = true /\
    Part001a.saveTimeForLastTab hostname env tabId st =
      Part001a.with_ledger
        (merge_overwrite h (tab_title tab) (duration_of (now env) t0)
           (websiteTime (Part001a.storage st))) st.
Proof.
  unfold Part001a.saveTimeForLastTab.
  destruct (negb (truthy_num tabId) || negb (truthy_num (Part001a.startTime st)));
    [by left |].
  destruct tabId as [tid |]; [| by left].
  destruct (Part001a.startTime st) as [t0 |] eqn:Ht; [| by left].
  destruct (duration_of (now env) t0 <=? 0) eqn:Hd; [by left |].
  destruct (tabs_get env tid) as [tab |] eqn:Hget; [| by left].
  destruct (trackable_url (tab_url tab)); [| by left].
  destruct (tab_url tab) as [u |] eqn:Hu; [| by left]. simpl.
  destruct (hostname u) as [h |] eqn:Hh; [| by left].
  destruct (commit_get_ok env) eqn:Hg; [| by left].
  destruct (commit_set_ok env) eqn:Hs; [| by left].
  right. exists tid, t0, tab, u, h. apply Z.leb_gt in Hd. by repeat split.
Qed.

Lemma Part001b_save_cases env tabId st :
  Part001b.saveTimeForLastTab hostname env tabId st = st \/
  exists tid t0 tab u h,
    tabId = Some tid /\ Part001b.startTime st = Some t0 /\
    0 < duration_of (now env) t0 /\
    tabs_get env tid = Some tab /\ tab_url tab = Some u /\ hostname u = Some h /\
    commit_get_ok env = true /\ commit_set_ok env = true /\
    Part001b.saveTimeForLastTab hostname env tabId st =
      Part001b.with_ledger
        (merge_overwrite h (tab_title tab) (duration_of (now env) t0)
           (websiteTime (Part001b.storage st))) st.
Proof.
  unfold Part001b.saveTimeForLastTab.
  destruct (negb (truthy_num tabId) || negb (truthy_num (Part001b.startTime st)));
    [by left |].
  destruct tabId as [tid |]; [| by left].
  destruct (Part001b.startTime st) as [t0 |] eqn:Ht; [| by left].
  destruct (duration_of (now env) t0 <=? 0) eqn:Hd; [by left |].
  destruct (tabs_get env tid) as [tab |] eqn:Hget; [| by left].
  destruct (trackable_url (tab_url tab)); [| by left].
  destruct (tab_url tab) as [u |] eqn:Hu; [| by left]. simpl.
  destruct (hostname u) as [h |] eqn:Hh; [| by left].
  destruct (commit_get_ok env) eqn:Hg; [| by left].
  destruct (commit_set_ok env) eqn:Hs; [| by left].
  right. exists tid, t0, tab, u, h. apply Z.leb_gt in Hd. by repeat split.
Qed.

(** Either the commit of background.js changes nothing, or the slot was
    set, the elapsed time positive, the tab resolved and the store
    answered, and one entry was merged. *)
Lemma Ext_save_cases env st :
  Ext.saveTimeForLastTab hostname env st = st \/
  exists tid t0 tab u h,
    Ext.lastTabId st = Some tid /\ Ext.startTime st = Some t0 /\
    0 < duration_of (now env) t0 /\
    tabs_get env tid = Some tab /\ tab_url tab = Some u /\ hostname u = Some h /\
    commit_get_ok env = true /\ commit_set_ok env = true /\
    Ext.saveTimeForLastTab hostname env st =
      Ext.with_ledger
        (merge_overwrite h (tab_title tab) (duration_of (now env) t0)
           (websiteTime (Ext.storage st))) st.
Proof.
  unfold Ext.saveTimeForLastTab.
  destruct (truthy_num (Ext.lastTabId st) && truthy_num (Ext.startTime st));
    [| by left].
  destruct (Ext.lastTabId st) as [tid |] eqn:Hid; [| by left].
  destruct (Ext.startTime st) as [t0 |] eqn:Ht; [| by left].
  destruct (duration_of (now env) t0 <=? 0) eqn:Hd; [by left |].
  destruct (tabs_get env tid) as [tab |] eqn:Hget; [| by left].
  destruct (trackable_url (tab_url tab)); [| by left].
  destruct (tab_url tab) as [u |] eqn:Hu; [| by left]. simpl.
  destruct (hostname u) as [h |] eqn:Hh; [| by left].
  destruct (commit_get_ok env) eqn:Hg; [| by left].
  destruct (commit_set_ok env) eqn:Hs; [| by left].
  right. exists tid, t0, tab, u, h. apply Z.leb_gt in Hd. by repeat split.
Qed.

(** X7: a commit whose elapsed time rounds to zero or less writes nothing
    to the ledger, in each of the four revisions. *)
Theorem X7_nonpositive_duration_discarded env (t0 : Z) (tabId : option Z)
    (stE : Ext.State) (stA : Part001a.State) (stB : Part001b.State)
    (stP : Part000.State) :
  duration_of (now env) t0 <= 0 ->
  (Ext.startTime stE = Some t0 ->
   Ext.saveTimeForLastTab hostname env stE = stE) /\
  (Part001a.startTime stA = Some t0 ->
   Part001a.saveTimeForLastTab hostname env tabId stA = stA) /\
  (Part001b.startTime stB = Some t0 ->
   Part001b.saveTimeForLastTab hostname env tabId stB = stB) /\
  (Part000.ati_startTime (Part000.activeTabInfo stP) = Some t0 ->
   websiteTime (Part000.storage (Part000.saveTimeForLastTab hostname env stP))
     = websiteTime (Part000.storage stP)).
Proof.
  intros Hd. repeat split.
  - intros Ht. by apply (Ext_save_nonpositive hostname env stE t0).
  - intros Ht. destruct (Part001a_save_cases env tabId stA)
      as [-> | (tid & t1 & tab & u & h & _ & Ht1 & Hpos & _)]; [done |].
    rewrite Ht in Ht1. injection Ht1 as <-. lia.
  - intros Ht. destruct (Part001b_save_cases env tabId stB)
      as [-> | (tid & t1 & tab & u & h & _ & Ht1 & Hpos & _)]; [done |].
    rewrite Ht in Ht1. injection Ht1 as <-. lia.
  - intros Ht.
    destruct (Part000_save_cases hostname env stP)
      as [[_ ->] | [_ (t1 & Ht1 & _ & [Hsame | (h & _ & Hpos & _)])]]; [done | done |].
    rewrite Ht in Ht1. injection Ht1 as <-. lia.
Qed.

(** X8: when the store refuses the read or the write of a commit, the
    three older revisions are left exactly as they were and part_000
    keeps its ledger as it was: the elapsed time is dropped, never
    half-written. *)
Theorem X8_commit_storage_failure env (tabId : option Z)
    (stE : Ext.State) (stA : Part001a.State) (stB : Part001b.State)
    (stP : Part000.State) :
  commit_get_ok env = false \/ commit_set_ok env = false ->
  Ext.saveTimeForLastTab hostname env stE = stE /\
  Part001a.saveTimeForLastTab hostname env tabId stA = stA /\
  Part001b.saveTimeForLastTab hostname env tabId stB = stB /\
  websiteTime (Part000.storage (Part000.saveTimeForLastTab hostname env stP))
    = websiteTime (Part000.storage stP).
Proof.
  intros Hfail. repeat split.
  - destruct (Ext_save_cases env stE)
      as [-> | (tid & t0 & tab & u & h & _ & _ & _ & _ & _ & _ & Hg & Hs & _)];
      [done |]. destruct Hfail; congruence.
  - destruct (Part001a_save_cases env tabId stA)
      as [-> | (tid & t0 & tab & u & h & _ & _ & _ & _ & _ & _ & Hg & Hs & _)];
      [done |]. destruct Hfail; congruence.
  - destruct (Part001b_save_cases env tabId stB)
      as [-> | (tid & t0 & tab & u & h & _ & _ & _ & _ & _ & _ & Hg & Hs & _)];
      [done |]. destruct Hfail; congruence.
  - unfold Part000.saveTimeForLastTab.
    destruct Hfail as [Hf | Hf]; rewrite Hf; branches.
Qed.

(** X9: a commit changes at most one entry of the ledger: in
    background.js every site key other than the host of the URL the
    browser reports for the timed tab keeps its entry, and in part_000
    every site key other than the host of the cached URL does. *)
Theorem X9_commit_touches_one_key env (k : string)
    (stE : Ext.State) (stP : Part000.State) :
  (ext_commit_site hostname env stE ≠ Some k ->
   websiteTime (Ext.storage (Ext.saveTimeForLastTab hostname env stE)) !! k
     = websiteTime (Ext.storage stE) !! k) /\
  (part000_timed_site hostname stP ≠ Some k ->
   websiteTime (Part000.storage (Part000.saveTimeForLastTab hostname env stP)) !! k
     = websiteTime (Part000.storage stP) !! k).
Proof.
  split.
  - intros Hsite.
    destruct (Ext_save_cases env stE)
      as [-> | (tid & t0 & tab & u & h & Hid & _ & _ & Hget & Hu & Hh & _ & _ & ->)];
      [done |].
    simpl. apply merge_overwrite_other. intros ->. apply Hsite.
    unfold ext_commit_site. rewrite Hid, Hget, Hu. done.
  - intros Hsite.
    destruct (Part000_save_cases hostname env stP)
      as [[_ ->] | [_ (t1 & _ & _ & [-> | (h & Hs & _ & ->)])]]; [done | done |].
    apply merge_keep_title_other. intros ->. by apply Hsite.
Qed.

(** X10: the alarm listener of background.js never changes the two slot
    variables, whatever the alarm, the environment and the state: after a
    tick the timer keeps running from the stamp it had. *)
Theorem X10_ext_tick_keeps_slot env name (st : Ext.State) :
  Ext.lastTabId (Ext.onAlarm hostname env name st).1 = Ext.lastTabId st /\
  Ext.startTime (Ext.onAlarm hostname env name st).1 = Ext.startTime st.
Proof. apply Ext_alarm_keeps_slot. Qed.

End CommitFrame.

Lemma X7_nonpositive_duration_discarded_witness :
  duration_of (now (env_at 1400 demo_tabs only_a)) 1000 <= 0 /\
  Ext.startTime (ext_timing_a (logged_out ∅)) = Some 1000 /\
  Ext.saveTimeForLastTab demo_hostname (env_at 1400 demo_tabs only_a)
    (ext_timing_a (logged_out ∅)) = ext_timing_a (logged_out ∅).
Proof.
  split; [by vm_compute |]. split; [reflexivity |].
  apply (X7_nonpositive_duration_discarded demo_hostname
           (env_at 1400 demo_tabs only_a) 1000 (Some 1)
           (ext_timing_a (logged_out ∅)) (part001a_idle (logged_out ∅))
           (part001b_idle (logged_out ∅)) (part000_timing_a (logged_out ∅))).
  - by vm_compute.
  - reflexivity.
Defined.

Lemma X8_commit_storage_failure_witness :
  (commit_get_ok (env_write_fails 11000 demo_tabs) = false \/
   commit_set_ok (env_write_fails 11000 demo_tabs) = false) /\
  Ext.saveTimeForLastTab demo_hostname (env_write_fails 11000 demo_tabs)
    (ext_timing_a (logged_out ledgerAB)) = ext_timing_a (logged_out ledgerAB).
Proof.
  split; [right; reflexivity |].
  apply (X8_commit_storage_failure demo_hostname (env_write_fails 11000 demo_tabs)
           (Some 1) (ext_timing_a (logged_out ledgerAB))
           (part001a_idle (logged_out ledgerAB)) (part001b_idle (logged_out ledgerAB))
           (part000_timing_a (logged_out ledgerAB))).
  right. reflexivity.
Defined.

Lemma X9_commit_touches_one_key_witness :
  ext_commit_site demo_hostname (env_at 11000 demo_tabs only_a)
    (ext_timing_a (logged_out ledgerAB)) ≠ Some "b.example" /\
  websiteTime (Ext.storage
    (Ext.saveTimeForLastTab demo_hostname (env_at 11000 demo_tabs only_a)
       (ext_timing_a (logged_out ledgerAB)))) !! "b.example"
  = websiteTime (Ext.storage (ext_timing_a (logged_out ledgerAB))) !! "b.example".
Proof.
  split; [by vm_compute |].
  apply (X9_commit_touches_one_key demo_hostname (env_at 11000 demo_tabs only_a)
           "b.example" (ext_timing_a (logged_out ledgerAB))
           (part000_timing_a (logged_out ledgerAB))).
  by vm_compute.
Defined.

(** ** part_000: time is never counted twice *)

(** X5: in part_000, along any run from the empty slot whose clock never
    goes backwards, the seconds added to the total of a site never exceed
    the time during which a context of that site was the timed one, up to
    half a second of rounding per handler invocation; ticks and their
    forced commits included. *)
Theorem X5_part000_no_overcount
    (hostname : string -> option string) (k : string)
    (trace : list (Env * Event)) (t0 : Z) (s : Storage) :
  clock_ok t0 trace -> 0 <= total_of k (websiteTime s) ->
  1000 * total_of k (websiteTime (Part000.storage
           (Part000.run hostname trace (Part000.init s)).1))
  <= 1000 * total_of k (websiteTime s)
     + part000_timed_ms hostname k t0 trace (Part000.init s)
     + 500 * Z.of_nat (length trace).
Proof. apply Part000_no_overcount. Qed.

Lemma X5_part000_no_overcount_witness :
  (clock_ok 1000 trace_with_tick /\
   0 <= total_of "a.example" (websiteTime (logged_out ∅))) /\
  1000 * total_of "a.example" (websiteTime (Part000.storage
           (Part000.run demo_hostname trace_with_tick
              (Part000.init (logged_out ∅))).1))
  <= 1000 * total_of "a.example" (websiteTime (logged_out ∅))
     + part000_timed_ms demo_hostname "a.example" 1000 trace_with_tick
         (Part000.init (logged_out ∅))
     + 500 * Z.of_nat (length trace_with_tick).
Proof.
  split.
  - split; [vm_compute; intuition discriminate | vm_compute; discriminate].
  - apply X5_part000_no_overcount.
    + vm_compute. intuition discriminate.
    + vm_compute. discriminate.
Defined.

(** ** Runs without a tick: the ledger only grows *)

Lemma ledger_le_trans (a b c : gmap string Entry) :
  ledger_le a b -> ledger_le b c -> ledger_le a c.
Proof.
  intros Hab Hbc k e He.
  destruct (Hab k e He) as (e1 & He1 & Hle1).
  destruct (Hbc k e1 He1) as (e2 & He2 & Hle2).
  exists e2. split; [done | by eapply num_le_trans].
Qed.

Section GrowOnly.
Variable hostname : string -> option string.

Lemma Ext_handle_grows env ev st :
  is_alarm ev = false ->
  ledger_le (websiteTime (Ext.storage st))
            (websiteTime (Ext.storage (Ext.handle hostname env ev st).1)).
Proof.
  intros Hna. pose proof (Ext_save_monotone hostname env st) as Hsave.
  destruct ev as [tabId | tabId ci tab | tabId | w | name]; simpl;
    try discriminate.
  - unfold Ext.handleTabChange. simpl. case_match; [done | apply ledger_le_refl].
  - unfold Ext.onUpdated. case_match; [| apply ledger_le_refl].
    unfold Ext.handleTabChange. simpl. case_match; [done | apply ledger_le_refl].
  - unfold Ext.handleTabRemoved. case_match; [done | apply ledger_le_refl].
  - apply ledger_le_refl.
Qed.

Lemma Part000_processTabChange_grows env tabId st :
  ledger_le (websiteTime (Part000.storage st))
    (websiteTime (Part000.storage (Part000.processTabChange hostname env tabId st))).
Proof.
  pose proof (Part000_save_monotone hostname env st) as Hsave.
  unfold Part000.processTabChange. branches. apply ledger_le_refl.
Qed.

Lemma Part000_handle_grows env ev st :
  is_alarm ev = false ->
  ledger_le (websiteTime (Part000.storage st))
            (websiteTime (Part000.storage (Part000.handle hostname env ev st).1)).
Proof.
  intros Hna. pose proof (Part000_save_monotone hostname env st) as Hsave.
  destruct ev as [tabId | tabId ci tab | tabId | w | name]; simpl;
    try discriminate.
  - apply Part000_processTabChange_grows.
  - unfold Part000.onUpdated. case_match; [| apply ledger_le_refl].
    apply Part000_processTabChange_grows.
  - unfold Part000.onRemoved. case_match; [done | apply ledger_le_refl].
  - unfold Part000.onFocusChanged. case_match; [done |].
    case_match; [| apply ledger_le_refl]. apply Part000_processTabChange_grows.
Qed.

(** X6: as long as no alarm fires, no run of background.js or of
    part_000 ever removes a ledger entry or lowers a total: whatever the
    events, the tab look-ups and the storage outcomes, every entry present
    before the run is present after it with a total at least as large. *)
Theorem X6_ledger_only_grows_without_tick (trace : list (Env * Event))
    (stE : Ext.State) (stP : Part000.State) :
  alarm_free trace ->
  ledger_le (websiteTime (Ext.storage stE))
            (websiteTime (Ext.storage (Ext.run hostname trace stE).1)) /\
  ledger_le (websiteTime (Part000.storage stP))
            (websiteTime (Part000.storage (Part000.run hostname trace stP).1)).
Proof.
  intros Hfree. revert stE stP.
  induction Hfree as [| [env ev] rest Hev Hrest IH]; intros stE stP.
  - split; apply ledger_le_refl.
  - simpl in Hev.
    pose proof (Ext_handle_grows env ev stE Hev) as HE.
    pose proof (Part000_handle_grows env ev stP Hev) as HP.
    cbn [Ext.run Part000.run].
    destruct (Ext.handle hostname env ev stE) as [stE1 rE1].
    destruct (Part000.handle hostname env ev stP) as [stP1 rP1].
    destruct (IH stE1 stP1) as [IHE IHP].
    destruct (Ext.run hostname rest stE1) as [stE2 rE2].
    destruct (Part000.run hostname rest stP1) as [stP2 rP2].
    simpl in *. split; eapply ledger_le_trans; eauto.
Qed.

End GrowOnly.

Lemma X6_ledger_only_grows_without_tick_witness :
  alarm_free trace_without_tick /\
  ledger_le (websiteTime (Ext.storage (Ext.init (logged_in ledgerAB))))
    (websiteTime (Ext.storage
       (Ext.run demo_hostname trace_without_tick (Ext.init (logged_in ledgerAB))).1)).
Proof.
  assert (alarm_free trace_without_tick) as Hfree.
  { repeat constructor. }
  split; [exact Hfree |].
  apply (X6_ledger_only_grows_without_tick demo_hostname trace_without_tick
           (Ext.init (logged_in ledgerAB)) (Part000.init (logged_in ledgerAB)) Hfree).
Defined.

(** ** part_000: when the timer stops, and what it never times *)

Section Part000Slot.
Variable hostname : string -> option string.

(** X11: in part_000 the timer is stopped after the window loses focus
    and after every tick: whatever the state before and whatever the
    storage and the network do, no slot is active afterwards, so time
    spent after a tick is not counted until the next activation. *)
Theorem X11_part000_idle_after_focus_loss_and_tick env (st : Part000.State) :
  slot_active (Part000.activeTabInfo
    (Part000.handle hostname env (FocusChanged WINDOW_ID_NONE) st).1) = false /\
  slot_active (Part000.activeTabInfo
    (Part000.handle hostname env (Alarm "sendDataAlarm") st).1) = false.
Proof.
  split.
  - simpl. unfold Part000.onFocusChanged. rewrite bool_decide_eq_true_2 by done.
    apply Part000_save_never_active.
  - simpl. rewrite Part000_alarm_slot. simpl. apply Part000_save_never_active.
Qed.

Lemma Part000_save_id env st i :
  Part000.ati_id (Part000.activeTabInfo (Part000.saveTimeForLastTab hostname env st))
    = Some i ->
  Part000.ati_id (Part000.activeTabInfo st) = Some i.
Proof.
  destruct (slot_active (Part000.activeTabInfo st)) eqn:Ha.
  - by rewrite Part000_save_clears.
  - by rewrite Part000_save_inactive.
Qed.

Lemma Part000_processTabChange_id env tabId st i :
  Part000.ati_id (Part000.activeTabInfo (Part000.processTabChange hostname env tabId st))
    = Some i ->
  (i = tabId /\ tabId ≠ TAB_ID_NONE) \/
  Part000.ati_id (Part000.activeTabInfo st) = Some i.
Proof.
  unfold Part000.processTabChange. case_bool_decide as Hnone; [by right |].
  destruct (tabs_get env tabId) as [tab |];
    [| intros H; right; by apply (Part000_save_id env)].
  destruct (trackable_url (tab_url tab));
    [| intros H; right; by apply (Part000_save_id env)].
  simpl. intros [= <-]. by left.
Qed.

Lemma Part000_handle_id env ev st i :
  Part000.ati_id (Part000.activeTabInfo (Part000.handle hostname env ev st).1) = Some i ->
  i ≠ TAB_ID_NONE \/ Part000.ati_id (Part000.activeTabInfo st) = Some i.
Proof.
  destruct ev as [tabId | tabId ci tab | tabId | w | name]; simpl.
  - intros Hx. destruct (Part000_processTabChange_id env tabId st i Hx) as [[-> ?] | ?];
      [by left | by right].
  - unfold Part000.onUpdated. case_match; [| by right].
    intros Hx. destruct (Part000_processTabChange_id env tabId st i Hx) as [[-> ?] | ?];
      [by left | by right].
  - unfold Part000.onRemoved. case_match; [| by right].
    intros Hx. right. by apply (Part000_save_id env).
  - unfold Part000.onFocusChanged. case_match.
    + intros Hx. right. by apply (Part000_save_id env).
    + case_match; [| by right].
      intros Hx.
      destruct (Part000_processTabChange_id env _ st i Hx) as [[-> ?] | ?];
        [by left | by right].
  - rewrite Part000_alarm_slot. case_match; [| by right].
    intros Hx. right. by apply (Part000_save_id env).
Qed.

(** X12: no run of part_000 from the empty slot ever times the browser's
    no-tab sentinel: whatever identifiers the events and the window
    queries deliver, the slot's identifier is never TAB_ID_NONE. *)
Theorem X12_part000_never_times_sentinel (trace : list (Env * Event)) (s : Storage) :
  Part000.ati_id (Part000.activeTabInfo
    (Part000.run hostname trace (Part000.init s)).1) ≠ Some TAB_ID_NONE.
Proof.
  assert (forall st,
            Part000.ati_id (Part000.activeTabInfo st) ≠ Some TAB_ID_NONE ->
            Part000.ati_id (Part000.activeTabInfo (Part000.run hostname trace st).1)
              ≠ Some TAB_ID_NONE) as Hgen.
  { induction trace as [| [env ev] rest IH]; intros st Hst; [done |].
    cbn [Part000.run].
    assert (Part000.ati_id (Part000.activeTabInfo (Part000.handle hostname env ev st).1)
              ≠ Some TAB_ID_NONE) as Hstep.
    { intros H. destruct (Part000_handle_id env ev st _ H); done. }
    destruct (Part000.handle hostname env ev st) as [st1 r1].
    specialize (IH st1 Hstep).
    destruct (Part000.run hostname rest st1) as [st2 r2]. done. }
  apply Hgen. done.
Qed.

End Part000Slot.

(** ** The older revisions: a second activation of the timed tab *)

(** X13: in background.js and in both scripts of part_001, an activation
    or URL change of the tab that is already the timed one commits
    nothing: the store is left as it was and the start stamp is renewed,
    so the time elapsed since the previous stamp is dropped. *)
Theorem X13_same_tab_restarts_without_commit
    (hostname : string -> option string) (env : Env) (tabId : Z)
    (stE : Ext.State) (stA : Part001a.State) (stB : Part001b.State) :
  tabId ≠ TAB_ID_NONE ->
  (Ext.lastTabId stE = Some tabId ->
   Ext.handleTabChange hostname env tabId stE
     = {| Ext.lastTabId := Some tabId; Ext.startTime := Some (now_start env);
          Ext.storage := Ext.storage stE |}) /\
  (Part001a.lastTabId stA = Some tabId ->
   Part001a.processTabChange hostname env tabId stA
     = {| Part001a.lastTabId := Some tabId;
          Part001a.startTime := Some (now_start env);
          Part001a.storage := Part001a.storage stA |}) /\
  (Part001b.lastTabId stB = Some tabId ->
   Part001b.processTabChange hostname env tabId stB
     = {| Part001b.lastTabId := Some tabId;
          Part001b.startTime := Some (now_start env);
          Part001b.storage := Part001b.storage stB |}).
Proof.
  intros Hreal. repeat split.
  - intros Hid. unfold Ext.handleTabChange. rewrite Hid.
    rewrite (bool_decide_eq_false_2 (Some tabId ≠ Some tabId)) by (intros H; by apply H).
    by rewrite andb_false_r.
  - intros Hid. unfold Part001a.processTabChange. rewrite Hid.
    rewrite (bool_decide_eq_false_2 (tabId = TAB_ID_NONE)) by done.
    rewrite (bool_decide_eq_false_2 (Some tabId ≠ Some tabId)) by (intros H; by apply H).
    by rewrite andb_false_r.
  - intros Hid. unfold Part001b.processTabChange. rewrite Hid.
    rewrite (bool_decide_eq_false_2 (tabId = TAB_ID_NONE)) by done.
    rewrite (bool_decide_eq_false_2 (Some tabId ≠ Some tabId)) by (intros H; by apply H).
    by rewrite andb_false_r.
Qed.

Lemma X13_same_tab_restarts_without_commit_witness :
  (1 ≠ TAB_ID_NONE /\ Ext.lastTabId (ext_timing_a (logged_out ledgerAB)) = Some 1) /\
  Ext.handleTabChange demo_hostname (env_at 11000 demo_tabs only_a) 1
    (ext_timing_a (logged_out ledgerAB))
  = {| Ext.lastTabId := Some 1; Ext.startTime := Some 11000;
       Ext.storage := logged_out ledgerAB |}.
Proof.
  split; [split; [by vm_compute | reflexivity] |].
  apply (X13_same_tab_restarts_without_commit demo_hostname
           (env_at 11000 demo_tabs only_a) 1 (ext_timing_a (logged_out ledgerAB))
           (part001a_idle (logged_out ledgerAB)) (part001b_idle (logged_out ledgerAB))).
  - by vm_compute.
  - reflexivity.
Defined.

(** ** Session and requests along whole runs *)

Section RunSession.
Variable hostname : string -> option string.

Lemma Ext_handle_session env ev st :
  token (Ext.storage (Ext.handle hostname env ev st).1) = token (Ext.storage st) /\
  username (Ext.storage (Ext.handle hostname env ev st).1) = username (Ext.storage st).
Proof.
  destruct (Ext_save_frame hostname env st) as (_ & _ & Ht & Hu).
  destruct ev as [tabId | tabId ci tab | tabId | w | name]; simpl.
  - unfold Ext.handleTabChange. simpl. by case_match.
  - unfold Ext.onUpdated. case_match; [| done].
    unfold Ext.handleTabChange. simpl. by case_match.
  - unfold Ext.handleTabRemoved. by case_match.
  - done.
  - unfold Ext.onAlarm. branches.
Qed.

Lemma Part000_processTabChange_session env tabId st :
  token (Part000.storage (Part000.processTabChange hostname env tabId st))
    = token (Part000.storage st) /\
  username (Part000.storage (Part000.processTabChange hostname env tabId st))
    = username (Part000.storage st).
Proof.
  destruct (Part000_save_session hostname env st) as [Ht Hu].
  unfold Part000.processTabChange. branches.
Qed.

Lemma Part000_handle_session env ev st :
  token (Part000.storage (Part000.handle hostname env ev st).1)
    = token (Part000.storage st) /\
  username (Part000.storage (Part000.handle hostname env ev st).1)
    = username (Part000.storage st).
Proof.
  destruct (Part000_save_session hostname env st) as [Ht Hu].
  destruct ev as [tabId | tabId ci tab | tabId | w | name]; simpl.
  - apply Part000_processTabChange_session.
  - unfold Part000.onUpdated. case_match; [| done].
    apply Part000_processTabChange_session.
  - unfold Part000.onRemoved. by case_match.
  - unfold Part000.onFocusChanged. case_match; [done |].
    case_match; [| done]. apply Part000_processTabChange_session.
  - unfold Part000.onAlarm. branches.
Qed.

(** X15: the tracker and the scheduler only read the session: after any
    run of background.js or of part_000, whatever the events and the
    answers of the browser, the stored token and user name are the ones
    the run started with. *)
Theorem X15_runs_never_write_session (trace : list (Env * Event))
    (stE : Ext.State) (stP : Part000.State) :
  (token (Ext.storage (Ext.run hostname trace stE).1) = token (Ext.storage stE) /\
   username (Ext.storage (Ext.run hostname trace stE).1) = username (Ext.storage stE)) /\
  (token (Part000.storage (Part000.run hostname trace stP).1)
     = token (Part000.storage stP) /\
   username (Part000.storage (Part000.run hostname trace stP).1)
     = username (Part000.storage stP)).
Proof.
  revert stE stP. induction trace as [| [env ev] rest IH]; intros stE stP; [done |].
  cbn [Ext.run Part000.run].
  destruct (Ext_handle_session env ev stE) as [HtE HuE].
  destruct (Part000_handle_session env ev stP) as [HtP HuP].
  destruct (Ext.handle hostname env ev stE) as [stE1 rE1].
  destruct (Part000.handle hostname env ev stP) as [stP1 rP1].
  destruct (IH stE1 stP1) as [[IHtE IHuE] [IHtP IHuP]].
  destruct (Ext.run hostname rest stE1) as [stE2 rE2].
  destruct (Part000.run hostname rest stP1) as [stP2 rP2].
  simpl in *. repeat split; congruence.
Qed.

Lemma Ext_handle_requests env ev st :
  Forall (fun r => bearer r = token (Ext.storage st) /\ truthy_str (bearer r) = true)
         (Ext.handle hostname env ev st).2.
Proof.
  destruct ev as [tabId | tabId ci tab | tabId | w | name]; simpl;
    try apply Forall_nil_2.
  destruct (Ext_save_frame hostname env st) as (_ & _ & Ht & _).
  unfold Ext.onAlarm.
  destruct (String.eqb name "sendDataAlarm"); [| apply Forall_nil_2].
  set (st1 := Ext.saveTimeForLastTab hostname env st) in *.
  destruct (sync_get_ok env); [| apply Forall_nil_2].
  destruct (truthy_str (token (Ext.storage st1))) eqn:Htok; [| apply Forall_nil_2].
  assert (Forall (fun r => bearer r = token (Ext.storage st) /\
                           truthy_str (bearer r) = true)
            (flat_map (Ext.sendTimeDataToBackend st1)
               (filter (fun kv : string * Entry => 0 < totalTime kv.2)
                  (map_to_list (websiteTime (Ext.storage st1)))))) as Hall.
  { apply Forall_forall. intros r Hin.
    apply list_elem_of_In, in_flat_map in Hin as [kv [_ Hr]].
    unfold Ext.sendTimeDataToBackend in Hr. rewrite Htok in Hr.
    destruct Hr as [<- | []]. simpl. by rewrite <- Ht. }
  simpl. by destruct (sync_set_ok env).
Qed.

Lemma Part000_handle_requests env ev st :
  Forall (fun r => bearer r = token (Part000.storage st) /\
                   truthy_str (bearer r) = true)
         (Part000.handle hostname env ev st).2.
Proof.
  destruct ev as [tabId | tabId ci tab | tabId | w | name]; simpl;
    try apply Forall_nil_2.
  destruct (Part000_save_session hostname env st) as [Ht _].
  unfold Part000.onAlarm.
  destruct (String.eqb name "sendDataAlarm"); [| apply Forall_nil_2].
  set (st1 := Part000.saveTimeForLastTab hostname env st) in *.
  destruct (sync_get_ok env); [| apply Forall_nil_2].
  destruct (truthy_str (token (Part000.storage st1))) eqn:Htok;
    [| apply Forall_nil_2].
  simpl. destruct (bool_decide (size (websiteTime (Part000.storage st1)) = 0%nat));
    [apply Forall_nil_2 |].
  assert (Forall (fun r => bearer r = token (Part000.storage st) /\
                           truthy_str (bearer r) = true)
            (map (request_of (token (Part000.storage st1)))
               (map_to_list (websiteTime (Part000.storage st1))))) as Hall.
  { apply Forall_forall. intros r Hin.
    apply list_elem_of_In, in_map_iff in Hin as [kv [<- _]]. simpl.
    by rewrite <- Ht. }
  branches.
Qed.

Lemma Ext_run_requests trace : forall st,
  Forall (fun r => bearer r = token (Ext.storage st) /\ truthy_str (bearer r) = true)
         (Ext.run hostname trace st).2.
Proof.
  induction trace as [| [env ev] rest IH]; intros st; [apply Forall_nil_2 |].
  cbn [Ext.run].
  pose proof (Ext_handle_requests env ev st) as Hstep.
  destruct (Ext_handle_session env ev st) as [Ht _].
  destruct (Ext.handle hostname env ev st) as [st1 r1].
  specialize (IH st1).
  destruct (Ext.run hostname rest st1) as [st2 r2]. simpl in *.
  apply Forall_app. split; [done |]. by rewrite <- Ht.
Qed.

Lemma Part000_run_requests trace : forall st,
  Forall (fun r => bearer r = token (Part000.storage st) /\
                   truthy_str (bearer r) = true)
         (Part000.run hostname trace st).2.
Proof.
  induction trace as [| [env ev] rest IH]; intros st; [apply Forall_nil_2 |].
  cbn [Part000.run].
  pose proof (Part000_handle_requests env ev st) as Hstep.
  destruct (Part000_handle_session env ev st) as [Ht _].
  destruct (Part000.handle hostname env ev st) as [st1 r1].
  specialize (IH st1).
  destruct (Part000.run hostname rest st1) as [st2 r2]. simpl in *.
  apply Forall_app. split; [done |]. by rewrite <- Ht.
Qed.

(** X16: every request issued along any run of background.js or of
    part_000 carries the token stored when the run started, and that
    token is not empty; when no token is stored, no run issues any
    request at all. *)
Theorem X16_requests_carry_stored_token (trace : list (Env * Event))
    (stE : Ext.State) (stP : Part000.State) :
  Forall (fun r => bearer r = token (Ext.storage stE) /\ truthy_str (bearer r) = true)
         (Ext.run hostname trace stE).2 /\
  Forall (fun r => bearer r = token (Part000.storage stP) /\
                   truthy_str (bearer r) = true)
         (Part000.run hostname trace stP).2 /\
  (truthy_str (token (Ext.storage stE)) = false ->
   (Ext.run hostname trace stE).2 = []) /\
  (truthy_str (token (Part000.storage stP)) = false ->
   (Part000.run hostname trace stP).2 = []).
Proof.
  pose proof (Ext_run_requests trace stE) as HE.
  pose proof (Part000_run_requests trace stP) as HP.
  split; [apply HE |]. split; [apply HP |]. split.
  - intros Hno.
    destruct ((Ext.run hostname trace stE).2) as [| r rs]; [done |].
    apply Forall_cons in HE as [[Hb Ht] _]. rewrite Hb in Ht. congruence.
  - intros Hno.
    destruct ((Part000.run hostname trace stP).2) as [| r rs]; [done |].
    apply Forall_cons in HP as [[Hb Ht] _]. rewrite Hb in Ht. congruence.
Qed.

End RunSession.

Lemma X16_requests_carry_stored_token_witness :
  truthy_str (token (Ext.storage (Ext.init (logged_out ledgerAB)))) = false /\
  (Ext.run demo_hostname trace_with_tick (Ext.init (logged_out ledgerAB))).2 = [].
Proof.
  split; [reflexivity |].
  apply (X16_requests_carry_stored_token demo_hostname trace_with_tick
           (Ext.init (logged_out ledgerAB)) (Part000.init (logged_out ledgerAB))).
  reflexivity.
Defined.

(** ** Totals stay positive *)

Lemma pos_total_is_integer (e : Entry) :
  0 < totalTime e -> exists z, totalTime e = Fin z /\ 0 < z.
Proof. destruct (totalTime e) as [z |]; simpl; intros H; [by exists z | lia]. Qed.

Lemma merge_overwrite_pos_ordinary url t d (wt : gmap string Entry) :
  0 < d -> ledger_pos_ordinary wt -> ledger_pos_ordinary (merge_overwrite url t d wt).
Proof.
  intros Hd Hpos k e Hord He. destruct (decide (url = k)) as [-> | Hne].
  - destruct (wt !! k) as [e0 |] eqn:H0.
    + rewrite (merge_overwrite_own _ _ _ e0) in He by done. injection He as <-.
      destruct (pos_total_is_integer e0 (Hpos k e0 Hord H0)) as (z & Hz & Hzpos).
      simpl. rewrite Hz. simpl. lia.
    + rewrite merge_overwrite_fresh in He by done. injection He as <-. simpl. lia.
  - rewrite merge_overwrite_other in He by done. by apply (Hpos k).
Qed.

Lemma merge_keep_title_pos url t d (wt : gmap string Entry) :
  0 < d -> ledger_pos wt -> ledger_pos (merge_keep_title url t d wt).
Proof.
  intros Hd Hpos k e He. destruct (decide (url = k)) as [-> | Hne].
  - destruct (wt !! k) as [e0 |] eqn:H0.
    + rewrite (merge_keep_title_present _ _ _ e0) in He by done.
      injection He as <-.
      destruct (pos_total_is_integer e0 (Hpos k e0 H0)) as (z & Hz & Hzpos).
      simpl. rewrite Hz. simpl. lia.
    + destruct (inherited_key k) eqn:Hinh.
      * rewrite merge_keep_title_inherited in He by done. congruence.
      * rewrite merge_keep_title_absent in He by done.
        injection He as <-. simpl. lia.
  - rewrite merge_keep_title_other in He by done. by apply (Hpos k).
Qed.

Lemma fold_delete_pos (l : list string) (wt : gmap string Entry) :
  ledger_pos wt -> ledger_pos (fold_left (fun m u => delete u m) l wt).
Proof.
  intros Hpos k e He. rewrite lookup_fold_delete in He.
  destruct (decide (k ∈ l)); [done |]. by apply (Hpos k).
Qed.

Section PositiveTotals.
Variable hostname : string -> option string.

Lemma Ext_save_pos_ordinary env st :
  ledger_pos_ordinary (websiteTime (Ext.storage st)) ->
  ledger_pos_ordinary
    (websiteTime (Ext.storage (Ext.saveTimeForLastTab hostname env st))).
Proof.
  intros Hpos.
  destruct (Ext_save_cases hostname env st)
    as [-> | (tid & t0 & tab & u & h & _ & _ & Hd & _ & _ & _ & _ & _ & ->)];
    [done |].
  simpl. by apply merge_overwrite_pos_ordinary.
Qed.

Lemma Ext_handle_pos_ordinary env ev st :
  ledger_pos_ordinary (websiteTime (Ext.storage st)) ->
  ledger_pos_ordinary (websiteTime (Ext.storage (Ext.handle hostname env ev st).1)).
Proof.
  intros Hpos. pose proof (Ext_save_pos_ordinary env st Hpos) as Hsave.
  destruct ev as [tabId | tabId ci tab | tabId | w | name]; simpl.
  - unfold Ext.handleTabChange. simpl. by case_match.
  - unfold Ext.onUpdated. case_match; [| done].
    unfold Ext.handleTabChange. simpl. by case_match.
  - unfold Ext.handleTabRemoved. by case_match.
  - done.
  - unfold Ext.onAlarm. branches; intros k e _ He; by rewrite lookup_empty in He.
Qed.

Lemma Part000_save_pos env st :
  ledger_pos (websiteTime (Part000.storage st)) ->
  ledger_pos (websiteTime (Part000.storage (Part000.saveTimeForLastTab hostname env st))).
Proof.
  intros Hpos.
  destruct (Part000_save_cases hostname env st)
    as [[_ ->] | [_ (t1 & _ & _ & [-> | (h & _ & Hd & ->)])]]; [done | done |].
  by apply merge_keep_title_pos.
Qed.

Lemma Part000_handle_pos env ev st :
  ledger_pos (websiteTime (Part000.storage st)) ->
  ledger_pos (websiteTime (Part000.storage (Part000.handle hostname env ev st).1)).
Proof.
  intros Hpos. pose proof (Part000_save_pos env st Hpos) as Hsave.
  assert (forall tabId,
            ledger_pos (websiteTime (Part000.storage
              (Part000.processTabChange hostname env tabId st)))) as Hptc.
  { intros tabId. unfold Part000.processTabChange. branches. }
  destruct ev as [tabId | tabId ci tab | tabId | w | name]; simpl.
  - apply Hptc.
  - unfold Part000.onUpdated. case_match; [apply Hptc | done].
  - unfold Part000.onRemoved. by case_match.
  - unfold Part000.onFocusChanged. case_match; [done |].
    case_match; [apply Hptc | done].
  - unfold Part000.onAlarm. branches; by apply fold_delete_pos.
Qed.

(** X17: part_000 writes positive totals only: if each entry of the
    stored ledger has a positive total when a run starts, so has each
    entry after the run, ticks included.  In background.js the same holds
    for the entries under site keys that are not property names of
    [Object.prototype]; under such a name the script writes a total that
    is not a number, which is not positive. *)
Theorem X17_totals_stay_positive (trace : list (Env * Event))
    (stE : Ext.State) (stP : Part000.State) :
  (ledger_pos_ordinary (websiteTime (Ext.storage stE)) ->
   ledger_pos_ordinary (websiteTime (Ext.storage (Ext.run hostname trace stE).1))) /\
  (ledger_pos (websiteTime (Part000.storage stP)) ->
   ledger_pos (websiteTime (Part000.storage (Part000.run hostname trace stP).1))).
Proof.
  split.
  - revert stE. induction trace as [| [env ev] rest IH]; intros st Hpos; [done |].
    cbn [Ext.run]. pose proof (Ext_handle_pos_ordinary env ev st Hpos) as Hstep.
    destruct (Ext.handle hostname env ev st) as [st1 r1].
    specialize (IH st1 Hstep).
    destruct (Ext.run hostname rest st1) as [st2 r2]. done.
  - revert stP. induction trace as [| [env ev] rest IH]; intros st Hpos; [done |].
    cbn [Part000.run]. pose proof (Part000_handle_pos env ev st Hpos) as Hstep.
    destruct (Part000.handle hostname env ev st) as [st1 r1].
    specialize (IH st1 Hstep).
    destruct (Part000.run hostname rest st1) as [st2 r2]. done.
Qed.

End PositiveTotals.

Lemma X17_totals_stay_positive_witness :
  (ledger_pos_ordinary (websiteTime (Ext.storage (Ext.init (logged_out ∅)))) /\
   ledger_pos (websiteTime (Part000.storage (Part000.init (logged_out ∅))))) /\
  ledger_pos_ordinary (websiteTime (Ext.storage
    (Ext.run demo_hostname trace_with_tick (Ext.init (logged_out ∅))).1)) /\
  ledger_pos (websiteTime (Part000.storage
    (Part000.run demo_hostname trace_with_tick (Part000.init (logged_out ∅))).1)).
Proof.
  assert (ledger_pos_ordinary (websiteTime (Ext.storage (Ext.init (logged_out ∅)))))
    as HposE.
  { intros k e _ He. simpl in He. rewrite lookup_empty in He. discriminate. }
  assert (ledger_pos (websiteTime (Part000.storage (Part000.init (logged_out ∅)))))
    as Hpos.
  { intros k e He. simpl in He. rewrite lookup_empty in He. discriminate. }
  split; [split; [exact HposE | exact Hpos] |].
  destruct (X17_totals_stay_positive demo_hostname trace_with_tick
              (Ext.init (logged_out ∅)) (Part000.init (logged_out ∅))) as [HE HP].
  split; [exact (HE HposE) | exact (HP Hpos)].
Defined.

(** The corner itself: ten seconds on the host "constructor".
    background.js reads the inherited [Object] function as the old entry
    and stores a total that is not a number; part_000 finds the inherited
    value truthy and stores nothing. *)
Example Ext_commit_under_inherited_key :
  websiteTime (Ext.storage
    (Ext.saveTimeForLastTab demo_hostname (env_at 11000 constructor_tabs only_a)
       (ext_timing_a (logged_out ∅)))) !! "constructor"
  = Some {| title := Some "C"; totalTime := NaN |}.
Proof. vm_compute. reflexivity. Qed.

Example Part000_commit_under_inherited_key :
  websiteTime (Part000.storage
    (Part000.saveTimeForLastTab demo_hostname (env_at 11000 constructor_tabs only_a)
       {| Part000.activeTabInfo :=
            {| Part000.ati_id := Some 1;
               Part000.ati_url := Some "https://constructor/x";
               Part000.ati_title := Some "C";
               Part000.ati_startTime := Some 1000 |};
          Part000.storage := logged_out ∅ |})) = ∅.
Proof. vm_compute. reflexivity. Qed.

(** ** background.js: without a tick, time is not counted twice *)

Section ExtNoOvercount.
Variable hostname : string -> option string.
Variable k : string.

Lemma ext_accrued_fresh x i s :
  ext_accrued x {| Ext.lastTabId := i; Ext.startTime := Some x; Ext.storage := s |} = 0.
Proof. unfold ext_accrued. simpl. lia. Qed.

Lemma ext_accrued_idle x i s :
  ext_accrued x {| Ext.lastTabId := i; Ext.startTime := None; Ext.storage := s |} = 0.
Proof. reflexivity. Qed.

Lemma ext_save_pays env hi st :
  ext_inv k hi st -> hi <= now env -> now env <= now_start env ->
  0 <= total_of k (websiteTime (Ext.storage (Ext.saveTimeForLastTab hostname env st))) /\
  1000 * total_of k (websiteTime (Ext.storage (Ext.saveTimeForLastTab hostname env st)))
  <= 1000 * total_of k (websiteTime (Ext.storage st))
     + ext_accrued (now_start env) st + 500.
Proof.
  intros [Hstart Htot] Hhi Hns.
  assert (0 <= ext_accrued (now_start env) st) as Hacc.
  { unfold ext_accrued. destruct (Ext.startTime st) as [t |] eqn:Ht; [| lia].
    specialize (Hstart t eq_refl). lia. }
  destruct (Ext_save_cases hostname env st)
    as [-> | (tid & t0 & tab & u & h & _ & Ht & Hd & _ & _ & _ & _ & _ & ->)];
    [lia |].
  simpl.
  pose proof (merge_overwrite_total_bounds h k (tab_title tab)
                (duration_of (now env) t0) (websiteTime (Ext.storage st))
                ltac:(lia) Htot) as Hb.
  destruct (decide (h = k)); [| lia].
  unfold ext_accrued in *. rewrite Ht in *.
  pose proof (duration_of_bounds (now env) t0). lia.
Qed.

Lemma ext_handle_pays env hi ev st :
  ext_inv k hi st -> hi <= now env -> now env <= now_start env ->
  is_alarm ev = false ->
  ext_inv k (now_start env) (Ext.handle hostname env ev st).1 /\
  1000 * total_of k (websiteTime (Ext.storage (Ext.handle hostname env ev st).1))
    + ext_accrued (now_start env) (Ext.handle hostname env ev st).1
  <= 1000 * total_of k (websiteTime (Ext.storage st))
     + ext_accrued (now_start env) st + 500.
Proof.
  intros Hinv Hhi Hns Hna.
  destruct (ext_save_pays env hi st Hinv Hhi Hns) as [Hnn Hpay].
  destruct Hinv as [Hstart Htot].
  assert (0 <= ext_accrued (now_start env) st) as Hacc.
  { unfold ext_accrued. destruct (Ext.startTime st) as [t |] eqn:Ht; [| lia].
    specialize (Hstart t eq_refl). lia. }
  assert (ext_inv k (now_start env) st /\
          1000 * total_of k (websiteTime (Ext.storage st))
            + ext_accrued (now_start env) st
          <= 1000 * total_of k (websiteTime (Ext.storage st))
             + ext_accrued (now_start env) st + 500) as Hsame.
  { split; [| lia]. split; [| done]. intros t Ht. specialize (Hstart t Ht). lia. }
  assert (forall tabId,
            ext_inv k (now_start env) (Ext.handleTabChange hostname env tabId st) /\
            1000 * total_of k (websiteTime (Ext.storage
                     (Ext.handleTabChange hostname env tabId st)))
              + ext_accrued (now_start env) (Ext.handleTabChange hostname env tabId st)
            <= 1000 * total_of k (websiteTime (Ext.storage st))
               + ext_accrued (now_start env) st + 500) as Hchange.
  { intros tabId. unfold Ext.handleTabChange.
    rewrite ext_accrued_fresh. unfold ext_inv. simpl.
    case_match; (split; [split; [intros t [= <-]; lia | done] |]); lia. }
  destruct ev as [tabId | tabId ci tab | tabId | w | name]; simpl;
    try discriminate.
  - apply Hchange.
  - unfold Ext.onUpdated. case_match; [apply Hchange | done].
  - unfold Ext.handleTabRemoved. case_match; [| done].
    rewrite ext_accrued_idle. unfold ext_inv. simpl.
    split; [split; [done | done] | lia].
  - done.
Qed.

Lemma Ext_no_overcount_from trace : forall st hi,
  alarm_free trace -> clock_ok hi trace -> ext_inv k hi st ->
  1000 * total_of k (websiteTime (Ext.storage (Ext.run hostname trace st).1))
  <= 1000 * total_of k (websiteTime (Ext.storage st))
     + ext_accrued hi st + (last_stamp hi trace - hi)
     + 500 * Z.of_nat (length trace).
Proof.
  induction trace as [| [env ev] rest IH]; intros st hi Hfree Hclock Hinv.
  - simpl. destruct Hinv as [Hstart Htot]. unfold ext_accrued.
    destruct (Ext.startTime st) as [t |] eqn:Ht; [| lia].
    specialize (Hstart t eq_refl). lia.
  - apply Forall_cons in Hfree as [Hev Hfree]. simpl in Hev.
    destruct Hclock as (Hhi & Hns & Hrest).
    destruct (ext_handle_pays env hi ev st Hinv Hhi Hns Hev) as [Hinv1 Hle].
    specialize (IH (Ext.handle hostname env ev st).1 (now_start env)
                  Hfree Hrest Hinv1).
    cbn [Ext.run last_stamp length].
    destruct (Ext.handle hostname env ev st) as [st1 r1]. simpl in *.
    destruct (Ext.run hostname rest st1) as [st2 r2]. simpl in *.
    assert (ext_accrued (now_start env) st <= ext_accrued hi st + (now_start env - hi))
      as Hgap.
    { unfold ext_accrued. destruct (Ext.startTime st); lia. }
    lia.
Qed.

End ExtNoOvercount.

(** X14: in background.js, along any run from the empty slot in which no
    alarm fires and the clock never goes backwards, the seconds added to
    the total of a site never exceed the time the run lasted, up to half a
    second of rounding per handler invocation.  The double counting of the
    revision needs a tick. *)
Theorem X14_ext_no_overcount_without_tick
    (hostname : string -> option string) (k : string)
    (trace : list (Env * Event)) (t0 : Z) (s : Storage) :
  alarm_free trace -> clock_ok t0 trace -> 0 <= total_of k (websiteTime s) ->
  1000 * total_of k (websiteTime (Ext.storage (Ext.run hostname trace (Ext.init s)).1))
  <= 1000 * total_of k (websiteTime s)
     + (last_stamp t0 trace - t0)
     + 500 * Z.of_nat (length trace).
Proof.
  intros Hfree Hclock Htot.
  assert (ext_inv k t0 (Ext.init s)) as Hinv.
  { split; [intros t Ht; discriminate | done]. }
  pose proof (Ext_no_overcount_from hostname k trace (Ext.init s) t0 Hfree Hclock Hinv)
    as Hle.
  unfold ext_accrued in Hle. simpl in Hle. lia.
Qed.

Lemma X14_ext_no_overcount_without_tick_witness :
  (alarm_free trace_without_tick /\ clock_ok 1000 trace_without_tick /\
   0 <= total_of "a.example" (websiteTime (logged_out ∅))) /\
  1000 * total_of "a.example" (websiteTime (Ext.storage
           (Ext.run demo_hostname trace_without_tick (Ext.init (logged_out ∅))).1))
  <= 1000 * total_of "a.example" (websiteTime (logged_out ∅))
     + (last_stamp 1000 trace_without_tick - 1000)
     + 500 * Z.of_nat (length trace_without_tick).
Proof.
  assert (alarm_free trace_without_tick) as Hfree by (repeat constructor).
  assert (clock_ok 1000 trace_without_tick) as Hclock
    by (vm_compute; intuition discriminate).
  assert (0 <= total_of "a.example" (websiteTime (logged_out ∅))) as Htot
    by (vm_compute; discriminate).
  split; [by repeat split |].
  exact (X14_ext_no_overcount_without_tick demo_hostname "a.example"
           trace_without_tick 1000 (logged_out ∅) Hfree Hclock Htot).
Defined.

(** ** Authentication: what reaches the store *)

(** X18: in part_000 a login that reports success has stored the session:
    the response was ok with a parsed body, the write went through, the
    stored user name is the one submitted and the stored token is the
    body's (or the previous one when the body has none).  In both
    background.js and part_000 a login never touches the ledger. *)
Theorem X18_part000_login_success_means_stored
    (resp : FetchResult) (set_ok : bool) (user : string) (s : Storage) :
  ((Part000.loginUser resp set_ok user s).2 = LoginSuccess ->
   set_ok = true /\
   username (Part000.loginUser resp set_ok user s).1 = Some user /\
   exists t e,
     resp = Response true (Some (BodyObj t e)) /\
     token (Part000.loginUser resp set_ok user s).1
       = match t with Some _ => t | None => token s end) /\
  websiteTime (Part000.loginUser resp set_ok user s).1 = websiteTime s /\
  websiteTime (Ext.loginUser resp set_ok user s).1 = websiteTime s.
Proof.
  split; [| split].
  - destruct resp as [| ok [[| t e] |]]; try destruct ok; simpl; try discriminate.
    destruct set_ok; simpl; [| discriminate].
    intros _. split; [done |]. split; [done |]. by exists t, e.
  - destruct resp as [| ok [[| t e] |]]; try destruct ok; simpl; try done.
    by destruct set_ok.
  - destruct resp as [| ok [[| t e] |]]; try destruct ok; simpl; try done.
    by destruct set_ok.
Qed.

Lemma X18_part000_login_success_means_stored_witness :
  (Part000.loginUser (Response true (Some (BodyObj (Some "tok") None))) true "u"
     (logged_out ledgerAB)).2 = LoginSuccess /\
  username (Part000.loginUser (Response true (Some (BodyObj (Some "tok") None))) true
              "u" (logged_out ledgerAB)).1 = Some "u".
Proof.
  split; [reflexivity |].
  apply (X18_part000_login_success_means_stored
           (Response true (Some (BodyObj (Some "tok") None))) true "u"
           (logged_out ledgerAB)).
  reflexivity.
Defined.

(** X19: of the requests the message listener of background.js and of
    part_000 receives, only a login can change the store: a registration
    answers with the forwarded body (or the fixed error) and leaves the
    store as it was, and a request with any other action leaves the store
    as it was and gets no answer. *)
Theorem X19_only_login_changes_store
    (resp : FetchResult) (set_ok : bool) (request : Message) (s : Storage) :
  (action request ≠ "login" ->
   (Ext.onMessage resp set_ok request s).1 = s /\
   (Part000.onMessage resp set_ok request s).1 = s) /\
  (action request = "register" ->
   (Ext.onMessage resp set_ok request s).2
     = Some (ReplyRegister (Ext.registerUser resp)) /\
   (Part000.onMessage resp set_ok request s).2
     = Some (ReplyRegister (Part000.registerUser resp))) /\
  (action request ≠ "login" -> action request ≠ "register" ->
   (Ext.onMessage resp set_ok request s).2 = None /\
   (Part000.onMessage resp set_ok request s).2 = None) /\
  (action request = "login" ->
   Ext.onMessage resp set_ok request s
     = ((Ext.loginUser resp set_ok (msg_username request) s).1,
        Some (ReplyLogin (Ext.loginUser resp set_ok (msg_username request) s).2)) /\
   Part000.onMessage resp set_ok request s
     = ((Part000.loginUser resp set_ok (msg_username request) s).1,
        Some (ReplyLogin (Part000.loginUser resp set_ok (msg_username request) s).2))).
Proof.
  unfold Ext.onMessage, Part000.onMessage.
  split; [| split; [| split]].
  - intros Hnl. apply String.eqb_neq in Hnl. rewrite Hnl.
    by destruct (String.eqb (action request) "register").
  - intros ->. done.
  - intros Hnl Hnr. apply String.eqb_neq in Hnl, Hnr. by rewrite Hnl, Hnr.
  - intros ->. simpl.
    destruct (Ext.loginUser resp set_ok (msg_username request) s).
    destruct (Part000.loginUser resp set_ok (msg_username request) s). done.
Qed.

Lemma X19_only_login_changes_store_witness :
  action {| action := "register"; msg_username := "u"; msg_password := "p" |}
    ≠ "login" /\
  (Part000.onMessage (Response true (Some (BodyObj (Some "tok") None))) true
     {| action := "register"; msg_username := "u"; msg_password := "p" |}
     (logged_out ledgerAB)).1 = logged_out ledgerAB.
Proof.
  split; [by vm_compute |].
  apply (X19_only_login_changes_store
           (Response true (Some (BodyObj (Some "tok") None))) true
           {| action := "register"; msg_username := "u"; msg_password := "p" |}
           (logged_out ledgerAB)).
  by vm_compute.
Defined.

(** ** The popup *)

Lemma truthy_str_nonempty (m : string) : truthy_str (Some m) = true -> m ≠ "".
Proof.
  simpl. intros H ->. by rewrite String.eqb_refl in H.
Qed.

(** X20: whatever comes back to the popup other than a success (an error
    result with or without a message, or no answer at all), the popup
    shows a non-empty message and keeps the containers and the greeting
    as they were: a failed login never leaves the user without feedback
    and never shows the logged-in view. *)
Theorem X20_popup_failed_login_feedback
    (user : string) (response : option LoginResult) (d : Popup.Dom) :
  response ≠ Some LoginSuccess ->
  Popup.messageDiv (Popup.loginResponse user response d) ≠ "" /\
  Popup.authContainer (Popup.loginResponse user response d) = Popup.authContainer d /\
  Popup.statusContainer (Popup.loginResponse user response d)
    = Popup.statusContainer d /\
  Popup.statusMessage (Popup.loginResponse user response d) = Popup.statusMessage d.
Proof.
  intros Hfail. destruct response as [[| [m |]] |]; simpl; try done.
  destruct (negb (String.eqb m "")) eqn:Hm; simpl; [| done].
  split; [| done]. by apply truthy_str_nonempty.
Qed.

Lemma X20_popup_failed_login_feedback_witness :
  Some (LoginError None) ≠ Some LoginSuccess /\
  Popup.messageDiv (Popup.loginResponse "u" (Some (LoginError None)) blank_dom) ≠ "".
Proof.
  split; [discriminate |].
  apply (X20_popup_failed_login_feedback "u" (Some (LoginError None)) blank_dom).
  discriminate.
Defined.

Lemma updateUI_exclusive b u d : exclusive_view (Popup.updateUI b u d).
Proof. destruct b; simpl; [by right | by left]. Qed.

Lemma step_exclusive a s d :
  exclusive_view d -> exclusive_view (Popup.step a (s, d)).2.
Proof.
  intros Hex. destruct a as [| | | | u r | | r |]; simpl; try done.
  - unfold Popup.onContentLoaded. repeat case_match; apply updateUI_exclusive.
  - destruct r as [[| e] |]; simpl; try done. by right.
  - unfold Popup.registerResponse. repeat case_match; done.
  - by left.
Qed.

(** X21: once the popup has opened, it shows either the forms or the
    greeting, never both and never neither, whatever the user clicks and
    whatever the background answers afterwards. *)
Theorem X21_popup_exclusive_view
    (actions : list Popup.Action) (s : Storage) (d : Popup.Dom) :
  exclusive_view (Popup.run (Popup.Opened :: actions) (s, d)).2.
Proof.
  unfold Popup.run. simpl.
  assert (exclusive_view (Popup.onContentLoaded s d)) as Hopen.
  { unfold Popup.onContentLoaded. repeat case_match; apply updateUI_exclusive. }
  generalize dependent (Popup.onContentLoaded s d). revert s.
  induction actions as [| a rest IH]; intros s d1 Hex; [done |].
  simpl. pose proof (step_exclusive a s d1 Hex) as Hstep.
  destruct (Popup.step a (s, d1)) as [s2 d2]. by apply IH.
Qed.

(** ** Popup and background together *)

(** X22: after a logout from the popup the ledger is kept, and no run of
    background.js or of part_000 on the resulting store issues a request,
    whatever was being timed and whatever events follow; a popup opened on
    that store shows the forms. *)
Theorem X22_logout_stops_sync
    (hostname : string -> option string) (trace : list (Env * Event))
    (s : Storage) (d d' : Popup.Dom)
    (i t : option Z) (info : Part000.ActiveTabInfo) :
  websiteTime (Popup.logout s d).1 = websiteTime s /\
  (Ext.run hostname trace
     {| Ext.lastTabId := i; Ext.startTime := t;
        Ext.storage := (Popup.logout s d).1 |}).2 = [] /\
  (Part000.run hostname trace
     {| Part000.activeTabInfo := info;
        Part000.storage := (Popup.logout s d).1 |}).2 = [] /\
  Popup.authContainer (Popup.onContentLoaded (Popup.logout s d).1 d') = "block" /\
  Popup.statusContainer (Popup.onContentLoaded (Popup.logout s d).1 d') = "none".
Proof.
  split; [done |]. split; [| split; [| done]].
  - pose proof (Ext_run_requests hostname trace
                  {| Ext.lastTabId := i; Ext.startTime := t;
                     Ext.storage := (Popup.logout s d).1 |}) as Hall.
    destruct (Ext.run hostname trace _).2 as [| r rs]; [done |].
    apply Forall_cons in Hall as [[Hb Ht] _]. simpl in Hb. rewrite Hb in Ht.
    discriminate.
  - pose proof (Part000_run_requests hostname trace
                  {| Part000.activeTabInfo := info;
                     Part000.storage := (Popup.logout s d).1 |}) as Hall.
    destruct (Part000.run hostname trace _).2 as [| r rs]; [done |].
    apply Forall_cons in Hall as [[Hb Ht] _]. simpl in Hb. rewrite Hb in Ht.
    discriminate.
Qed.

Lemma Part000_login_failure_keeps_store resp set_ok user s :
  (Part000.loginUser resp set_ok user s).2 ≠ LoginSuccess ->
  (Part000.loginUser resp set_ok user s).1 = s.
Proof.
  destruct resp as [| ok [[| t e] |]]; try destruct ok; simpl; try done.
  by destruct set_ok.
Qed.

Lemma popup_failed_login_message user response d :
  response ≠ Some LoginSuccess ->
  Popup.messageDiv (Popup.loginResponse user response d) ≠ "".
Proof.
  intros Hfail. destruct response as [[| [m |]] |]; simpl; try done.
  destruct (negb (String.eqb m "")) eqn:Hm; simpl; [| done].
  by apply truthy_str_nonempty.
Qed.

(** X23: a login from the popup answered by part_000.  On an ok response
    with a parsed body and a working store, the user name is stored and
    the popup shows the greeting for that user with an empty message; if
    the user name is not empty, a popup opened later on that store shows
    the same greeting.  On every other outcome the store is unchanged and
    the popup shows a non-empty message. *)
Theorem X23_login_round_trip
    (resp : FetchResult) (set_ok : bool) (user : string)
    (s : Storage) (d d' : Popup.Dom) :
  (forall t e, resp = Response true (Some (BodyObj t e)) -> set_ok = true ->
     username (part000_login_flow resp set_ok user (s, d)).1 = Some user /\
     Popup.statusContainer (part000_login_flow resp set_ok user (s, d)).2 = "block" /\
     Popup.authContainer (part000_login_flow resp set_ok user (s, d)).2 = "none" /\
     Popup.statusMessage (part000_login_flow resp set_ok user (s, d)).2
       = String.append "Hello, " (String.append user "!") /\
     Popup.messageDiv (part000_login_flow resp set_ok user (s, d)).2 = "" /\
     (user ≠ "" ->
      Popup.statusContainer
        (Popup.onContentLoaded (part000_login_flow resp set_ok user (s, d)).1 d')
        = "block" /\
      Popup.statusMessage
        (Popup.onContentLoaded (part000_login_flow resp set_ok user (s, d)).1 d')
        = String.append "Hello, " (String.append user "!"))) /\
  ((Part000.loginUser resp set_ok user s).2 ≠ LoginSuccess ->
     (part000_login_flow resp set_ok user (s, d)).1 = s /\
     Popup.messageDiv (part000_login_flow resp set_ok user (s, d)).2 ≠ "").
Proof.
  split.
  - intros t e -> ->. unfold part000_login_flow. simpl.
    do 5 (split; [done |]). intros Hu.
    unfold Popup.onContentLoaded. simpl.
    apply String.eqb_neq in Hu. rewrite Hu. simpl. done.
  - intros Hfail. unfold part000_login_flow.
    split; [by apply Part000_login_failure_keeps_store |].
    apply popup_failed_login_message.
    simpl. intros [= Hr]. by apply Hfail.
Qed.

Lemma X23_login_round_trip_witness :
  (Response true (Some (BodyObj (Some "tok") None))
     = Response true (Some (BodyObj (Some "tok") None)) /\ "u" ≠ "") /\
  Popup.statusMessage
    (Popup.onContentLoaded
       (part000_login_flow (Response true (Some (BodyObj (Some "tok") None))) true "u"
          (logged_out ledgerAB, blank_dom)).1 blank_dom)
  = "Hello, u!".
Proof.
  split; [split; [reflexivity | discriminate] |].
  destruct (X23_login_round_trip (Response true (Some (BodyObj (Some "tok") None)))
              true "u" (logged_out ledgerAB) blank_dom blank_dom) as [Hok _].
  destruct (Hok (Some "tok") None eq_refl eq_refl) as (_ & _ & _ & _ & _ & Hre).
  destruct (Hre ltac:(discriminate)) as [_ Hmsg]. exact Hmsg.
Defined.

(** X24: a registration from the popup answered by part_000.  On a
    transport failure or an unparsable body the popup shows the fixed
    connection message; when the forwarded body carries a non-empty error
    the popup shows it; in both cases the forms stay as they were.  When
    the forwarded body has no error the popup reports success and shows
    the login form, whether or not the response was ok: the status of the
    registration response is never looked at. *)
Theorem X24_register_feedback (resp : FetchResult) (d : Popup.Dom) :
  ((resp = NetworkError \/ exists ok, resp = Response ok None) ->
   Popup.messageDiv (part000_register_flow resp d)
     = "Could not connect to the server." /\
   Popup.loginFormContainer (part000_register_flow resp d)
     = Popup.loginFormContainer d /\
   Popup.registerFormContainer (part000_register_flow resp d)
     = Popup.registerFormContainer d) /\
  (forall ok t m, resp = Response ok (Some (BodyObj t (Some m))) -> m ≠ "" ->
   Popup.messageDiv (part000_register_flow resp d) = m /\
   Popup.loginFormContainer (part000_register_flow resp d)
     = Popup.loginFormContainer d /\
   Popup.registerFormContainer (part000_register_flow resp d)
     = Popup.registerFormContainer d) /\
  (forall ok t, resp = Response ok (Some (BodyObj t None)) ->
   Popup.messageDiv (part000_register_flow resp d) = "User registered successfully!" /\
   Popup.loginFormContainer (part000_register_flow resp d) = "block" /\
   Popup.registerFormContainer (part000_register_flow resp d) = "none").
Proof.
  unfold part000_register_flow. split; [| split].
  - intros [-> | [ok ->]]; [done |]. by destruct ok.
  - intros ok t m -> Hm. simpl.
    apply String.eqb_neq in Hm. rewrite Hm. simpl. by destruct ok.
  - intros ok t ->. by destruct ok.
Qed.

Lemma X24_register_feedback_witness :
  (NetworkError = NetworkError \/ exists ok, NetworkError = Response ok None) /\
  Popup.messageDiv (part000_register_flow NetworkError blank_dom)
    = "Could not connect to the server.".
Proof.
  split; [by left |].
  apply (X24_register_feedback NetworkError blank_dom). by left.
Defined.

(** ** part_001: the removal listeners *)



(** ** Rounding *)

(** X26: the elapsed seconds of a commit are the elapsed milliseconds
    rounded to the nearest second, halves upwards: they differ from the
    exact value by at most half a second, they are exact on whole seconds,
    and they are zero or less, so that nothing is recorded, exactly when
    less than half a second has elapsed. *)
Theorem X26_elapsed_rounding (t1 t0 : Z) :
  (1000 * duration_of t1 t0 - 500 <= t1 - t0 < 1000 * duration_of t1 t0 + 500) /\
  ((t1 - t0) mod 1000 = 0 -> 1000 * duration_of t1 t0 = t1 - t0) /\
  (duration_of t1 t0 <= 0 <-> t1 - t0 < 500).
Proof.
  pose proof (duration_of_bounds t1 t0) as Hb.
  split; [done |]. split; [apply duration_of_whole_seconds |]. lia.
Qed.

Lemma X26_elapsed_rounding_witness :
  (7000 - 1000) mod 1000 = 0 /\ 1000 * duration_of 7000 1000 = 7000 - 1000.
Proof.
  split; [reflexivity |].
  apply (X26_elapsed_rounding 7000 1000). reflexivity.
Defined.
